(** * PBIManager: a shallow embedding of [classes_pbi_api.py]

    The class [PBIManager] wraps the Power BI REST API: it holds the
    credentials and a bearer token, issues authenticated GET/POST calls and
    turns the JSON answers into data frames.  The embedding keeps the
    control flow of every method and makes the effects explicit: the HTTP
    transport, the identity provider, standard output and the file system
    are fields of a [World] that the methods thread through a state and
    exception monad. *)

From Stdlib Require Import ZArith Ascii String DecimalString Lia.
From stdpp Require Import base option list strings gmap.

Local Open Scope string_scope.
Local Open Scope Z_scope.
Local Set Warnings "-register-all".

(** ** Python values

    Values that come out of [response.json()] and of the MSAL token
    response.  [JNull] is Python's [None]; [JNum] is an [int]; [JFloat] is a
    [float], given by the 64 bits of its IEEE 754 encoding; a [JObj] is a
    [dict] with string keys in insertion order (a parsed dict holds every
    key once). *)

Inductive json : Type :=
  | JNull
  | JBool (b : bool)
  | JNum (n : Z)
  | JFloat (bits : Z)
  | JStr (s : string)
  | JArr (items : list json)
  | JObj (fields : list (string * json)).

(** The exceptions the methods can raise.  Every [raise Exception(...)] of
    the source is [Exception msg]; the other constructors are the built-in
    exceptions raised by subscripting, attribute access and the libraries;
    [LibraryError] is an exception class of a library, given by its name. *)

Inductive exn : Type :=
  | Exception (msg : string)
  | KeyError (key : json)
  | IndexError
  | TypeError
  | AttributeError
  | ValueError
  | JSONDecodeError
  | RequestException
  | MsalError
  | OSError
  | LibraryError (name : string).

Abbreviation result A := (exn + A)%type.

(** *** Strings *)

Definition nl : string := String "010"%char EmptyString.
Definition dquote : string := String "034"%char EmptyString.

(** [str(n)] for an [int]. *)
Definition str_int (n : Z) : string := NilZero.string_of_int (Z.to_int n).

(** Length in bytes of the UTF-8 sequence that starts with byte [c]. *)
Definition utf8_width (c : ascii) : nat :=
  let n := nat_of_ascii c in
  if (n <? 192)%nat then 1%nat
  else if (n <? 224)%nat then 2%nat
  else if (n <? 240)%nat then 3%nat
  else 4%nat.

(** The characters of a [str]: one per UTF-8 sequence. *)
Fixpoint str_chars_fuel (fuel : nat) (s : string) : list string :=
  match fuel with
  | O => []
  | S fuel' =>
      match s with
      | EmptyString => []
      | String c _ =>
          let w := utf8_width c in
          substring 0 w s :: str_chars_fuel fuel' (substring w (String.length s - w) s)
      end
  end.

Definition str_chars (s : string) : list string :=
  str_chars_fuel (String.length s) s.

(** *** Dictionaries, subscripting, truth *)

Fixpoint assoc (k : string) (fields : list (string * json)) : option json :=
  match fields with
  | [] => None
  | (k', v) :: rest => if String.eqb k k' then Some v else assoc k rest
  end.

(** [d.get(key, default)]: only a [dict] has the method. *)
Definition py_get (d : json) (key : string) (default : json) : result json :=
  match d with
  | JObj fields => inr (match assoc key fields with Some v => v | None => default end)
  | _ => inl AttributeError
  end.

Inductive subscript : Type :=
  | SKey (k : string)
  | SIdx (i : Z).

(** [seq[i]] on a list of length [n]: negative indices count from the end. *)
Definition seq_index {A} (l : list A) (i : Z) : option A :=
  let n := Z.of_nat (length l) in
  if 0 <=? i then l !! Z.to_nat i
  else if - n <=? i then l !! Z.to_nat (n + i)
  else None.

(** [v[k]]. *)
Definition py_getitem (v : json) (k : subscript) : result json :=
  match v, k with
  | JObj fields, SKey s =>
      match assoc s fields with
      | Some x => inr x
      | None => inl (KeyError (JStr s))
      end
  | JObj _, SIdx i => inl (KeyError (JNum i))
  | JArr items, SIdx i =>
      match seq_index items i with
      | Some x => inr x
      | None => inl IndexError
      end
  | JArr _, SKey _ => inl TypeError
  | JStr s, SIdx i =>
      match seq_index (str_chars s) i with
      | Some c => inr (JStr c)
      | None => inl IndexError
      end
  | JStr _, SKey _ => inl TypeError
  | _, _ => inl TypeError
  end.

(** [bool(v)], as used by [if v:] and [not v]. *)
Definition py_truthy (v : json) : bool :=
  match v with
  | JNull => false
  | JBool b => b
  | JNum n => negb (n =? 0)
  | JFloat bits => negb (Z.land bits (2 ^ 63 - 1) =? 0)
  | JStr s => negb (String.eqb s "")
  | JArr items => match items with [] => false | _ => true end
  | JObj fields => match fields with [] => false | _ => true end
  end.

Definition is_none (v : json) : bool :=
  match v with
  | JNull => true
  | _ => false
  end.

Definition is_dict (v : json) : bool :=
  match v with
  | JObj _ => true
  | _ => false
  end.

(** [for x in v]: the items the loop visits. *)
Definition py_iter (v : json) : result (list json) :=
  match v with
  | JArr items => inr items
  | JObj fields => inr (map (λ kv, JStr (fst kv)) fields)
  | JStr s => inr (map JStr (str_chars s))
  | _ => inl TypeError
  end.

(** [os.path.join(a, b)] of [posixpath]. *)
Definition ends_with_slash (a : string) : bool :=
  match String.length a with
  | O => false
  | S n => String.eqb (substring n 1 a) "/"
  end.

Definition os_path_join (a b : string) : string :=
  if String.prefix "/" b then b
  else if String.eqb a "" || ends_with_slash a then a +:+ b
  else a +:+ "/" +:+ b.

(** ** Data frames

    [pd.DataFrame] assembles the records into an array of entries, one row
    per record and one entry per column label, with the missing marker
    where a record has no such key, and then decides how each column is
    stored from the entries of that column: integers next to a missing
    entry are stored as floats, [None] may be stored as NaN, and so on,
    depending on the version of pandas.  The first part is modelled here;
    the second is left to the runtime ([infer_column]). *)

(** An entry of the array pandas assembles. *)
Inductive raw : Type :=
  | Missing
  | Given (v : json).

(** A cell as pandas stores it. *)
Inductive cell : Type :=
  | NaN
  | Cell (v : json).

Record DataFrame : Type := {
  df_columns : list string;
  df_rows : list (list cell);
}.

Definition dict_fields (v : json) : list (string * json) :=
  match v with
  | JObj fields => fields
  | _ => []
  end.

Definition raw_entry (record : json) (column : string) : raw :=
  match assoc column (dict_fields record) with
  | Some v => Given v
  | None => Missing
  end.

(** The entries of a column, one per record. *)
Definition raw_column (records : list json) (column : string) : list raw :=
  map (λ r, raw_entry r column) records.

(** Column labels of a list of records when none are given: the keys in
    order of first appearance. *)
Definition add_key (seen : list string) (k : string) : list string :=
  if existsb (String.eqb k) seen then seen else seen ++ [k].

Definition record_keys (records : list json) : list string :=
  fold_left (λ seen r, fold_left add_key (map fst (dict_fields r)) seen) records [].

(** The exceptions of pandas and openpyxl. *)
Inductive library_error : Type :=
  | LibTypeError
  | LibValueError
  | LibAttributeError
  | LibOther (name : string).

Definition library (e : library_error) : exn :=
  match e with
  | LibTypeError => TypeError
  | LibValueError => ValueError
  | LibAttributeError => AttributeError
  | LibOther name => LibraryError name
  end.

(** What the interpreter and the libraries do beyond the control flow of
    the class is left open:
    - [py_repr]: the [repr] of a list, dict or float inside an f-string;
    - [infer_column]: the cells pandas stores for a column of entries;
    - [frame_irregular]: [pd.DataFrame] of data that is neither [None] nor
      a list of dicts, a frame or an exception;
    - [excel_write]: [DataFrame.to_excel] for a sheet name and a frame:
      [None] when the sheet is written, otherwise the exception raised
      (a cell openpyxl cannot store, a frame too large) with what is left
      of the sheet in the workbook, if the sheet was created. *)
Record Runtime : Type := {
  py_repr : json -> string;
  infer_column : list raw -> list cell;
  frame_irregular : json -> option (list string) -> library_error + DataFrame;
  excel_write : string -> DataFrame -> option (library_error * option DataFrame);
}.

(** The cell stored at position [i] of the column built from [entries]. *)
Definition stored (rt : Runtime) (entries : list raw) (i : nat) : cell :=
  nth i (infer_column rt entries) NaN.

(** The cell of an entry stored as it is, and the columns pandas stores
    that way: no entry converted. *)
Definition plain (entry : raw) : cell :=
  match entry with
  | Missing => NaN
  | Given v => Cell v
  end.

Definition kept (rt : Runtime) (entries : list raw) : Prop :=
  infer_column rt entries = map plain entries.

(** The frame of a list of records: one row per record, and in each row
    the cell stored for each column. *)
Definition frame_of_records (rt : Runtime) (records : list json)
    (columns : option (list string)) : DataFrame :=
  let cols := match columns with Some cs => cs | None => record_keys records end in
  {| df_columns := cols;
     df_rows := map (λ i, map (λ c, stored rt (raw_column records c) i) cols)
                  (seq 0 (length records)) |}.

(** ** The world outside the class

    [requests], MSAL, [print] and the file system.  What the remote service
    and the identity provider answer may depend on everything that happened
    before, so both take the trace of events so far; [None] is a transport
    failure ([requests] or MSAL raises).  [files] maps a path to the
    workbook stored there; a workbook is its sheets in order, and the
    empty list stands for a file that holds no workbook: what opening for
    writing creates and what a save that raises leaves behind, a file that
    cannot be read back.  No save ever stores it. *)

Inductive method : Type :=
  | GET
  | POST.

Record Request : Type := {
  rq_method : method;
  rq_url : string;
  rq_headers : list (string * string);
  rq_json : option json;
}.

Record Response : Type := {
  status_code : Z;
  text : string;
  json_body : option json;
}.

Record TokenRequest : Type := {
  tr_client_id : string;
  tr_authority : string;
  tr_client_credential : string;
  tr_scopes : list string;
}.

Abbreviation Workbook := (list (string * DataFrame)).

Inductive message : Type :=
  | ErrorCaught (e : exn)
  | DocumentationSaved (path : string)
  | RefreshStarted (dataset_id : string).

Inductive event : Type :=
  | Http (rq : Request)
  | AcquireToken (rq : TokenRequest)
  | OpenFile (path : string)
  | SaveFile (path : string) (book : Workbook)
  | Print (m : message).

Record World : Type := {
  remote : list event -> Request -> option Response;
  identity : list event -> TokenRequest -> option (list (string * json));
  writable : string -> bool;
  files : gmap string Workbook;
  trace : list event;
}.

(** The attributes of a [PBIManager] instance. *)
Record PBIManager : Type := {
  tenant_id : string;
  client_id : string;
  client_secret : string;
  scope : list string;
  access_token : json;
  authority : string;
}.

(** A state is the instance, the workbooks of the [ExcelWriter]s that are
    open (by path), and the world. *)
Record State : Type := {
  self : PBIManager;
  writers : gmap string Workbook;
  world : World;
}.

Definition with_trace (t : list event) (w : World) : World :=
  {| remote := remote w; identity := identity w; writable := writable w;
     files := files w; trace := t |}.

Definition with_files (f : gmap string Workbook) (w : World) : World :=
  {| remote := remote w; identity := identity w; writable := writable w;
     files := f; trace := trace w |}.

Definition with_world (w : World) (s : State) : State :=
  {| self := self s; writers := writers s; world := w |}.

Definition with_writers (ws : gmap string Workbook) (s : State) : State :=
  {| self := self s; writers := ws; world := world s |}.

Definition with_access_token (tok : json) (s : State) : State :=
  {| self := {| tenant_id := tenant_id (self s); client_id := client_id (self s);
                client_secret := client_secret (self s); scope := scope (self s);
                access_token := tok; authority := authority (self s) |};
     writers := writers s; world := world s |}.

Definition log (ev : event) (s : State) : State :=
  with_world (with_trace (trace (world s) ++ [ev]) (world s)) s.

(** ** The monad of methods: state and exceptions *)

Definition M (A : Type) : Type := State -> result A * State.

#[global] Instance M_ret : MRet M := λ A x s, (inr x, s).

#[global] Instance M_bind : MBind M := λ A B f m s,
  match m s with
  | (inl e, s') => (inl e, s')
  | (inr x, s') => f x s'
  end.

#[global] Instance M_throw : MThrow exn M := λ A e s, (inl e, s).

#[global] Instance result_bind : MBind (sum exn) := λ A B f r,
  match r with
  | inl e => inl e
  | inr x => f x
  end.

Definition lift {A} (r : result A) : M A := λ s, (r, s).

Definition emit (ev : event) : M unit := λ s, (inr tt, log ev s).

Definition print (m : message) : M unit := emit (Print m).

(** [try: body  except Exception as e: handler(e); raise]. *)
Definition try_reraise {A} (body : M A) (handler : exn -> M unit) : M A := λ s,
  match body s with
  | (inl e, s') =>
      match handler e s' with
      | (inl e', s'') => (inl e', s'')
      | (inr _, s'') => (inl e, s'')
      end
  | (inr x, s') => (inr x, s')
  end.

(** [with ... :] runs [final] on every way out of [body]; an exception of
    [body] goes on after it. *)
Definition try_finally {A} (body : M A) (final : M unit) : M A := λ s,
  match body s with
  | (r, s') =>
      match final s' with
      | (inl e', s'') => (inl e', s'')
      | (inr _, s'') => (r, s'')
      end
  end.

(** [for x in l: body(x)], collecting what the bodies produce. *)
Fixpoint for_each {A B} (body : A -> M B) (l : list A) : M (list B) :=
  match l with
  | [] => mret []
  | x :: rest => y ← body x; ys ← for_each body rest; mret (y :: ys)
  end.

(** *** [requests] and MSAL *)

Definition requests_send (rq : Request) : M Response := λ s,
  match remote (world s) (trace (world s)) rq with
  | Some r => (inr r, log (Http rq) s)
  | None => (inl RequestException, log (Http rq) s)
  end.

Definition requests_get (url : string) (headers : list (string * string)) : M Response :=
  requests_send {| rq_method := GET; rq_url := url; rq_headers := headers; rq_json := None |}.

Definition requests_post (url : string) (headers : list (string * string))
    (body : option json) : M Response :=
  requests_send {| rq_method := POST; rq_url := url; rq_headers := headers; rq_json := body |}.

(** [response.json()]. *)
Definition response_json (r : Response) : M json :=
  match json_body r with
  | Some v => mret v
  | None => mthrow JSONDecodeError
  end.

(** [msal.ConfidentialClientApplication(...).acquire_token_for_client(...)]. *)
Definition acquire_token_for_client (rq : TokenRequest) : M (list (string * json)) := λ s,
  match identity (world s) (trace (world s)) rq with
  | Some d => (inr d, log (AcquireToken rq) s)
  | None => (inl MsalError, log (AcquireToken rq) s)
  end.

(** *** [pd.ExcelWriter] with [mode='w'] and [DataFrame.to_excel] *)

(** Creating the writer opens the file for writing, which creates or
    truncates it. *)
Definition ExcelWriter_enter (path : string) : M unit := λ s,
  if writable (world s) path then
    (inr tt,
     with_writers (<[path := []]> (writers s))
       (log (OpenFile path) (with_world (with_files (<[path := []]> (files (world s))) (world s)) s)))
  else (inl OSError, s).

(** [df.to_excel(writer, sheet_name=...)]: the sheet is added to the
    workbook of the writer; when the write raises, what was written of the
    sheet stays in the workbook. *)
Definition to_excel (rt : Runtime) (path : string) (sheet_name : string) (df : DataFrame)
  : M unit := λ s,
  let book := default [] (writers s !! path) in
  match excel_write rt sheet_name df with
  | None =>
      (inr tt, with_writers (<[path := (book ++ [(sheet_name, df)])%list]> (writers s)) s)
  | Some (e, Some partial) =>
      (inl (library e),
       with_writers (<[path := (book ++ [(sheet_name, partial)])%list]> (writers s)) s)
  | Some (e, None) => (inl (library e), s)
  end.

(** Leaving the [with] block saves the workbook into the file.  openpyxl
    refuses to save a workbook without a sheet: the save raises
    [IndexError] and the file holds no workbook. *)
Definition ExcelWriter_exit (path : string) : M unit := λ s,
  match default [] (writers s !! path) with
  | [] => (inl IndexError, with_writers (delete path (writers s)) s)
  | sheet :: sheets =>
      (inr tt,
       with_writers (delete path (writers s))
         (log (SaveFile path (sheet :: sheets))
            (with_world
               (with_files (<[path := sheet :: sheets]> (files (world s))) (world s)) s)))
  end.

(** ** The class *)

Definition get_self : M PBIManager := λ s, (inr (self s), s).

Definition set_access_token (tok : json) : M unit := λ s, (inr tt, with_access_token tok s).

Definition no_token_msg : string :=
  "❌ No access token, call " +:+ dquote +:+ "get_token()" +:+ dquote.

(** The message of [raise Exception(f"❌ Error: {response.status_code} - {response.text}")]. *)
Definition api_error_msg (status : Z) (body : string) : string :=
  "❌ Error: " +:+ str_int status +:+ " - " +:+ body.

(** The names the specification gives to the exceptions of the class. *)
Definition NotAuthenticatedError : exn := Exception no_token_msg.
Definition ApiError (status : Z) (body : string) : exn := Exception (api_error_msg status body).
Definition AuthenticationError : exn := Exception "❌ Failed to retrieve the token".

(** A [QueryResultShapeError] is what subscripting the payload raises
    inside the [try] of [execute_query]. *)
Definition QueryResultShapeError (e : exn) : bool :=
  match e with
  | KeyError _ | IndexError | TypeError => true
  | _ => false
  end.

Definition api_root : string := "https://api.powerbi.com/v1.0/myorg".

Definition doc_var_list : list string := ["columns"; "tables"; "measures"; "relations"].

(** The query text of [get_documentation] for one word. *)
Definition query_word (word : string) : string :=
  nl +:+ "                EVALUATE" +:+ nl +:+ "                Info_" +:+ word +:+ nl
  +:+ "                ".

Definition __init__ (tenant_id client_id client_secret scope : string) : M unit := λ s,
  (inr tt,
   {| self := {| tenant_id := tenant_id;
                 client_id := client_id;
                 client_secret := client_secret;
                 scope := [scope];
                 access_token := JNull;
                 authority := "https://login.microsoftonline.com/" +:+ tenant_id |};
      writers := writers s;
      world := world s |}).

Section Methods.

Variable rt : Runtime.

(** [f"{v}"]. *)
Definition py_str (v : json) : string :=
  match v with
  | JStr s => s
  | JNum n => str_int n
  | JBool true => "True"
  | JBool false => "False"
  | JNull => "None"
  | _ => py_repr rt v
  end.

(** [pd.DataFrame(data, columns=columns)]. *)
Definition pd_DataFrame (data : json) (columns : option (list string)) : result DataFrame :=
  let irregular :=
    match frame_irregular rt data columns with
    | inr df => inr df
    | inl e => inl (library e)
    end in
  match data with
  | JNull => inr {| df_columns := default [] columns; df_rows := [] |}
  | JArr items =>
      if forallb is_dict items then inr (frame_of_records rt items columns) else irregular
  | _ => irregular
  end.

Definition bearer (tok : json) : string * string :=
  ("Authorization", "Bearer " +:+ py_str tok).

Definition get_token : M unit :=
  me ← get_self;
  token_response ← acquire_token_for_client
    {| tr_client_id := client_id me; tr_authority := authority me;
       tr_client_credential := client_secret me; tr_scopes := scope me |};
  set_access_token (default JNull (assoc "access_token" token_response));;
  me ← get_self;
  if negb (py_truthy (access_token me))
  then mthrow (Exception "❌ Failed to retrieve the token")
  else mret tt.

Definition get_list_of_datasets (workspace_id : string) : M DataFrame :=
  me ← get_self;
  if is_none (access_token me) then mthrow (Exception no_token_msg) else
  let url := api_root +:+ "/groups/" +:+ workspace_id +:+ "/datasets" in
  let headers := [bearer (access_token me)] in
  response ← requests_get url headers;
  if status_code response =? 200 then
    data ← response_json response;
    datasets ← lift (py_get data "value" (JArr []));
    lift (pd_DataFrame datasets (Some ["id"; "name"]))
  else mthrow (Exception (api_error_msg (status_code response) (text response))).

Definition get_list_of_reports (workspace_id : string) : M DataFrame :=
  me ← get_self;
  if is_none (access_token me) then mthrow (Exception no_token_msg) else
  let url := api_root +:+ "/groups/" +:+ workspace_id +:+ "/reports" in
  let headers := [bearer (access_token me)] in
  response ← requests_get url headers;
  if status_code response =? 200 then
    data ← response_json response;
    reports ← lift (py_get data "value" (JArr []));
    lift (pd_DataFrame reports (Some ["id"; "name"]))
  else mthrow (Exception (api_error_msg (status_code response) (text response))).

(** The body of the loop over the reports: the dict appended to
    [report_list]. *)
Definition report_entry (workspace_id : string) (headers : list (string * string))
    (report : json) : M json :=
  report_id ← lift (py_get report "id" JNull);
  report_name ← lift (py_get report "name" JNull);
  dataset_id ← lift (py_get report "datasetId" JNull);
  dataset_name ←
    (if py_truthy dataset_id then
       let dataset_url :=
         api_root +:+ "/groups/" +:+ workspace_id +:+ "/datasets/" +:+ py_str dataset_id in
       dataset_response ← requests_get dataset_url headers;
       if status_code dataset_response =? 200 then
         dataset_data ← response_json dataset_response;
         lift (py_get dataset_data "name" JNull)
       else mret JNull
     else mret JNull);
  mret (JObj [("report_id", report_id); ("report_name", report_name);
              ("dataset_id", dataset_id); ("dataset_name", dataset_name)]).

Definition get_reports_with_datasets (workspace_id : string) : M DataFrame :=
  me ← get_self;
  if is_none (access_token me) then mthrow (Exception no_token_msg) else
  let url := api_root +:+ "/groups/" +:+ workspace_id +:+ "/reports" in
  let headers := [bearer (access_token me)] in
  response ← requests_get url headers;
  if status_code response =? 200 then
    data ← response_json response;
    reports ← lift (py_get data "value" (JArr []));
    items ← lift (py_iter reports);
    report_list ← for_each (report_entry workspace_id headers) items;
    lift (pd_DataFrame (JArr report_list)
            (Some ["report_id"; "report_name"; "dataset_id"; "dataset_name"]))
  else mthrow (Exception (api_error_msg (status_code response) (text response))).

(** The expression [result_json['results'][0]['tables'][0]['rows']]. *)
Definition rows_of_payload (result_json : json) : result json :=
  r ← py_getitem result_json (SKey "results");
  r ← py_getitem r (SIdx 0);
  r ← py_getitem r (SKey "tables");
  r ← py_getitem r (SIdx 0);
  py_getitem r (SKey "rows").

Definition execute_query (query_input dataset_id : string) : M DataFrame :=
  me ← get_self;
  if is_none (access_token me) then mthrow (Exception no_token_msg) else
  let url := api_root +:+ "/datasets/" +:+ dataset_id +:+ "/executeQueries" in
  let headers := [("Content-Type", "application/json"); bearer (access_token me)] in
  let query := JObj [("queries", JArr [JObj [("query", JStr query_input)]])] in
  response ← requests_post url headers (Some query);
  if status_code response =? 200 then
    result_json ← response_json response;
    try_reraise
      (data ← lift (rows_of_payload result_json);
       lift (pd_DataFrame data None))
      (λ e, print (ErrorCaught e))
  else mthrow (Exception (api_error_msg (status_code response) (text response))).

Definition get_documentation (dataset_id path_to_save : string) : M unit :=
  me ← get_self;
  if is_none (access_token me) then mthrow (Exception no_token_msg) else
  let file_name := "Documentation_" +:+ dataset_id +:+ ".xlsx" in
  let file_path := os_path_join path_to_save file_name in
  ExcelWriter_enter file_path;;
  try_finally
    (for_each
       (λ word,
          df ← execute_query (query_word word) dataset_id;
          to_excel rt file_path word df)
       doc_var_list)
    (ExcelWriter_exit file_path);;
  print (DocumentationSaved file_path).

Definition refresh_dataset (workspace_id dataset_id : string) : M unit :=
  me ← get_self;
  if is_none (access_token me) then mthrow (Exception no_token_msg) else
  let url :=
    api_root +:+ "/groups/" +:+ workspace_id +:+ "/datasets/" +:+ dataset_id +:+ "/refreshes" in
  let headers := [bearer (access_token me); ("Content-Type", "application/json")] in
  response ← requests_post url headers None;
  if status_code response =? 202 then print (RefreshStarted dataset_id)
  else mthrow (Exception (api_error_msg (status_code response) (text response))).

End Methods.

(** ** The operations of the client, uniformly *)

Inductive operation : Type :=
  | FetchToken
  | ListDatasets (workspace_id : string)
  | ListReports (workspace_id : string)
  | ListReportsWithDatasets (workspace_id : string)
  | ExecuteQuery (query_input dataset_id : string)
  | ExportDocumentation (dataset_id path_to_save : string)
  | RefreshDataset (workspace_id dataset_id : string).

Inductive value : Type :=
  | Unit
  | Frame (df : DataFrame).

Definition call (rt : Runtime) (op : operation) : M value :=
  match op with
  | FetchToken => get_token;; mret Unit
  | ListDatasets w => df ← get_list_of_datasets rt w; mret (Frame df)
  | ListReports w => df ← get_list_of_reports rt w; mret (Frame df)
  | ListReportsWithDatasets w => df ← get_reports_with_datasets rt w; mret (Frame df)
  | ExecuteQuery q d => df ← execute_query rt q d; mret (Frame df)
  | ExportDocumentation d p => get_documentation rt d p;; mret Unit
  | RefreshDataset w d => refresh_dataset rt w d;; mret Unit
  end.

(** The operations that need a token. *)
Definition authenticated (op : operation) : bool :=
  match op with
  | FetchToken => false
  | _ => true
  end.

(** A caller that performs the operations one after the other, going on
    after an exception. *)
Fixpoint run (rt : Runtime) (ops : list operation) (s : State) : State :=
  match ops with
  | [] => s
  | op :: rest => run rt rest (snd (call rt op s))
  end.

(** The HTTP requests among the events. *)
Definition http_requests (t : list event) : list Request :=
  omap (λ ev, match ev with Http rq => Some rq | _ => None end) t.

(** ** Mocks

    A service and an identity provider that answer by request alone, a
    file system where every path can be written, and a runtime that stores
    every entry as it is, writes every sheet and gives up on irregular
    data. *)

Definition mock_runtime : Runtime :=
  {| py_repr := λ _, "";
     infer_column := map plain;
     frame_irregular := λ _ _, inl LibValueError;
     excel_write := λ _ _, None |}.

(** The same runtime with a writer that creates the sheet [columns] and
    then refuses its cells. *)
Definition refusing_writer : Runtime :=
  {| py_repr := py_repr mock_runtime;
     infer_column := infer_column mock_runtime;
     frame_irregular := frame_irregular mock_runtime;
     excel_write := λ sheet_name df,
       if String.eqb sheet_name "columns"
       then Some (LibOther "IllegalCharacterError",
                  Some {| df_columns := df_columns df; df_rows := [] |})
       else None |}.

Definition mock_world (service : Request -> option Response)
    (provider : TokenRequest -> option (list (string * json))) : World :=
  {| remote := λ _, service; identity := λ _, provider; writable := λ _, true;
     files := ∅; trace := [] |}.

Definition mock_client (tok : json) : PBIManager :=
  {| tenant_id := "t"; client_id := "c"; client_secret := "s";
     scope := ["https://analysis.windows.net/powerbi/api/.default"];
     access_token := tok; authority := "https://login.microsoftonline.com/t" |}.

Definition mock_state (tok : json) (service : Request -> option Response)
    (provider : TokenRequest -> option (list (string * json))) : State :=
  {| self := mock_client tok; writers := ∅; world := mock_world service provider |}.

Definition respond (status : Z) (body : string) (payload : option json) : option Response :=
  Some {| status_code := status; text := body; json_body := payload |}.

Definition no_provider : TokenRequest -> option (list (string * json)) := λ _, None.

(** A service with one report bound to dataset [d1]: the reports call is
    answered by 200, everything else by 404. *)
Definition reports_payload : json :=
  JObj [("value", JArr [JObj [("id", JStr "r1"); ("name", JStr "Sales report");
                              ("datasetId", JStr "d1")]])].

Definition reports_service (rq : Request) : option Response :=
  if String.eqb (rq_url rq) "https://api.powerbi.com/v1.0/myorg/groups/w/reports"
  then respond 200 "" (Some reports_payload)
  else respond 404 "not found" None.

(** A service that answers every query with one row [{a: 1}]. *)
Definition rows_payload : json :=
  JObj [("results", JArr [JObj [("tables", JArr [JObj [("rows", JArr [JObj [("a", JNum 1)]])]])]])].

Definition query_service (rq : Request) : option Response :=
  respond 200 "" (Some rows_payload).

Definition one_row : DataFrame := {| df_columns := ["a"]; df_rows := [[Cell (JNum 1)]] |}.

(** A service that answers the first two queries of the documentation and
    refuses the others. *)
Definition failing_service (rq : Request) : option Response :=
  match rq_json rq with
  | Some (JObj [(_, JArr [JObj [(_, JStr q)]])]) =>
      if String.eqb q (query_word "columns") || String.eqb q (query_word "tables")
      then respond 200 "" (Some rows_payload)
      else respond 500 "boom" None
  | _ => respond 500 "boom" None
  end.

(** A service with one dataset. *)
Definition datasets_service (rq : Request) : option Response :=
  respond 200 ""
    (Some (JObj [("value", JArr [JObj [("id", JStr "d1"); ("name", JStr "Sales")]])])).

Definition accepting_service (rq : Request) : option Response := respond 202 "" None.

(** A service that refuses every request. *)
Definition refusing_service (rq : Request) : option Response := respond 500 "boom" None.

(** An identity provider whose answer carries an empty token. *)
Definition empty_token_provider (rq : TokenRequest) : option (list (string * json)) :=
  Some [("access_token", JStr "")].

(** An identity provider that refuses: its answer has no token. *)
Definition refusing_provider (rq : TokenRequest) : option (list (string * json)) :=
  Some [("error", JStr "invalid_client")].

(** ** The requests the methods send *)

Definition datasets_request (rt : Runtime) (tok : json) (workspace_id : string) : Request :=
  {| rq_method := GET;
     rq_url := api_root +:+ "/groups/" +:+ workspace_id +:+ "/datasets";
     rq_headers := [bearer rt tok];
     rq_json := None |}.

Definition reports_request (rt : Runtime) (tok : json) (workspace_id : string) : Request :=
  {| rq_method := GET;
     rq_url := api_root +:+ "/groups/" +:+ workspace_id +:+ "/reports";
     rq_headers := [bearer rt tok];
     rq_json := None |}.

Definition dataset_detail_request (rt : Runtime) (tok : json) (workspace_id : string)
    (dataset_id : json) : Request :=
  {| rq_method := GET;
     rq_url := api_root +:+ "/groups/" +:+ workspace_id +:+ "/datasets/" +:+ py_str rt dataset_id;
     rq_headers := [bearer rt tok];
     rq_json := None |}.

Definition query_request (rt : Runtime) (tok : json) (query_input dataset_id : string)
  : Request :=
  {| rq_method := POST;
     rq_url := api_root +:+ "/datasets/" +:+ dataset_id +:+ "/executeQueries";
     rq_headers := [("Content-Type", "application/json"); bearer rt tok];
     rq_json := Some (JObj [("queries", JArr [JObj [("query", JStr query_input)]])]) |}.

Definition refresh_request (rt : Runtime) (tok : json) (workspace_id dataset_id : string)
  : Request :=
  {| rq_method := POST;
     rq_url := api_root +:+ "/groups/" +:+ workspace_id +:+ "/datasets/" +:+ dataset_id
               +:+ "/refreshes";
     rq_headers := [bearer rt tok; ("Content-Type", "application/json")];
     rq_json := None |}.

(** ** What a query makes of an answer

    The result of [execute_query] and the events it adds are functions of
    what the service answers to its one request. *)

Definition add_events (evs : list event) (s : State) : State :=
  with_world (with_trace (trace (world s) ++ evs) (world s)) s.

Definition query_outcome (rt : Runtime) (answer : option Response) : result DataFrame :=
  match answer with
  | None => inl RequestException
  | Some resp =>
      if status_code resp =? 200 then
        match json_body resp with
        | None => inl JSONDecodeError
        | Some payload => data ← rows_of_payload payload; pd_DataFrame rt data None
        end
      else inl (ApiError (status_code resp) (text resp))
  end.

Definition query_events (rt : Runtime) (rq : Request) (answer : option Response)
  : list event :=
  Http rq ::
  match answer with
  | None => []
  | Some resp =>
      if status_code resp =? 200 then
        match json_body resp with
        | None => []
        | Some payload =>
            match (data ← rows_of_payload payload; pd_DataFrame rt data None) with
            | inl e => [Print (ErrorCaught e)]
            | inr _ => []
            end
        end
      else []
  end.

(** The answers to requests sent one after the other from trace [t] on. *)
Fixpoint answers (service : list event -> Request -> option Response) (t : list event)
    (rqs : list Request) : list (option Response) :=
  match rqs with
  | [] => []
  | rq :: rest => service t rq :: answers service (t ++ [Http rq]) rest
  end.

(** The results before the first exception, and that exception. *)
Fixpoint completed {A} (outcomes : list (result A)) : list A :=
  match outcomes with
  | inr x :: rest => x :: completed rest
  | _ => []
  end.

Fixpoint first_error {A} (outcomes : list (result A)) : option exn :=
  match outcomes with
  | [] => None
  | inl e :: _ => Some e
  | inr _ :: rest => first_error rest
  end.

(** The events of queries run in a row until one raises. *)
Fixpoint queries_events (rt : Runtime) (service : list event -> Request -> option Response)
    (t : list event) (rqs : list Request) : list event :=
  match rqs with
  | [] => []
  | rq :: rest =>
      (query_events rt rq (service t rq) ++
       match query_outcome rt (service t rq) with
       | inr _ => queries_events rt service (t ++ [Http rq]) rest
       | inl _ => []
       end)%list
  end.

(** The file and the four requests of [get_documentation]. *)
Definition doc_path (dataset_id path_to_save : string) : string :=
  os_path_join path_to_save ("Documentation_" +:+ dataset_id +:+ ".xlsx").

Definition doc_requests (rt : Runtime) (tok : json) (dataset_id : string) (words : list string)
  : list Request :=
  map (λ word, query_request rt tok (query_word word) dataset_id) words.

Definition doc_outcomes (rt : Runtime) (s : State) (dataset_id path_to_save : string)
  : list (result DataFrame) :=
  map (query_outcome rt)
    (answers (remote (world s))
       (trace (world s) ++ [OpenFile (doc_path dataset_id path_to_save)])
       (doc_requests rt (access_token (self s)) dataset_id doc_var_list)).

(** The loop of [get_documentation] from trace [t] and workbook [book], as
    a function of what the service answers and of what the writes do: the
    exception that ends it if there is one, the workbook it leaves in the
    writer, and the events it adds.  Each word is a query and then a
    write; the first of these to raise ends the loop. *)
Fixpoint export_loop (rt : Runtime) (service : list event -> Request -> option Response)
    (tok : json) (dataset_id : string) (t : list event) (words : list string)
    (book : Workbook) : option exn * Workbook * list event :=
  match words with
  | [] => (None, book, [])
  | word :: rest =>
      let rq := query_request rt tok (query_word word) dataset_id in
      match query_outcome rt (service t rq) with
      | inl e => (Some e, book, query_events rt rq (service t rq))
      | inr df =>
          match excel_write rt word df with
          | None =>
              let '(r, b, evs) :=
                export_loop rt service tok dataset_id (t ++ [Http rq]) rest
                  (book ++ [(word, df)]) in
              (r, b, Http rq :: evs)
          | Some (e, Some partial) => (Some (library e), (book ++ [(word, partial)])%list, [Http rq])
          | Some (e, None) => (Some (library e), book, [Http rq])
          end
      end
  end.

(** The frames [dfs] returned for the first words are all written. *)
Definition writes_ok (rt : Runtime) (words : list string) (dfs : list DataFrame) : Prop :=
  Forall2 (λ word df, excel_write rt word df = None) (take (length dfs) words) dfs.

(** How many leading words went through: the query returned and the sheet
    was written. *)
Fixpoint steps_passed (rt : Runtime) (words : list string) (outcomes : list (result DataFrame))
  : nat :=
  match words, outcomes with
  | word :: rest, inr df :: more =>
      match excel_write rt word df with
      | None => S (steps_passed rt rest more)
      | Some _ => O
      end
  | _, _ => O
  end.

(** Events that touch no file. *)
Definition file_free (ev : event) : bool :=
  match ev with
  | OpenFile _ | SaveFile _ _ => false
  | _ => true
  end.

(** ** Frames on the instance *)

(** A computation that leaves the instance as it found it, whatever it
    returns or raises. *)
Definition keeps_self {A} (m : M A) : Prop :=
  ∀ s, self (snd (m s)) = self s.

(** Two instances with the same attributes, the token apart. *)
Definition same_credentials (a b : PBIManager) : Prop :=
  tenant_id a = tenant_id b
  ∧ client_id a = client_id b
  ∧ client_secret a = client_secret b
  ∧ scope a = scope b
  ∧ authority a = authority b.

(** The request [get_token] makes of the identity provider. *)
Definition token_request (me : PBIManager) : TokenRequest :=
  {| tr_client_id := client_id me; tr_authority := authority me;
     tr_client_credential := client_secret me; tr_scopes := scope me |}.

(** [token_response.get('access_token')]. *)
Definition response_token (token_response : list (string * json)) : json :=
  default JNull (assoc "access_token" token_response).

(** ** Reports and their datasets *)

(** [report.get(key)] for a report that is a dict. *)
Definition field (report : json) (key : string) : json :=
  match assoc key (dict_fields report) with
  | Some v => v
  | None => JNull
  end.

(** The dict appended to [report_list] for a report and a dataset name. *)
Definition entry (report name : json) : json :=
  JObj [("report_id", field report "id"); ("report_name", field report "name");
        ("dataset_id", field report "datasetId"); ("dataset_name", name)].

(** The reports of a listing that carry a dataset id. *)
Definition has_dataset (report : json) : bool := py_truthy (field report "datasetId").

(** What the answer to the dataset detail request gives for the name. *)
Definition detail_outcome (answer : option Response) : result json :=
  match answer with
  | None => inl RequestException
  | Some resp =>
      if status_code resp =? 200 then
        match json_body resp with
        | None => inl JSONDecodeError
        | Some dataset_data => py_get dataset_data "name" JNull
        end
      else inr JNull
  end.


(** The exceptions that are not raised by a [raise Exception(...)] of the
    class. *)
Definition builtin (e : exn) : bool :=
  match e with
  | Exception _ => false
  | _ => true
  end.


(** ** What a listing makes of an answer

    [get_list_of_datasets] and [get_list_of_reports] treat the answer to
    their one request alike. *)

Definition listing_outcome (rt : Runtime) (answer : option Response) : result DataFrame :=
  match answer with
  | None => inl RequestException
  | Some resp =>
      if status_code resp =? 200 then
        match json_body resp with
        | None => inl JSONDecodeError
        | Some data =>
            value ← py_get data "value" (JArr []);
            pd_DataFrame rt value (Some ["id"; "name"])
        end
      else inl (ApiError (status_code resp) (text resp))
  end.

(** The request of an operation that sends exactly one. *)
Definition single_request (rt : Runtime) (tok : json) (op : operation) : option Request :=
  match op with
  | ListDatasets w => Some (datasets_request rt tok w)
  | ListReports w => Some (reports_request rt tok w)
  | ExecuteQuery q d => Some (query_request rt tok q d)
  | RefreshDataset w d => Some (refresh_request rt tok w d)
  | _ => None
  end.

(** ** What every request looks like *)

(** An event of an authenticated operation run with token [tok]: a request
    goes to the API root, carries the bearer header of [tok] and, for a
    POST, the JSON content type; the identity provider is not called. *)
Definition secured (rt : Runtime) (tok : json) (ev : event) : Prop :=
  match ev with
  | Http rq =>
      bearer rt tok ∈ rq_headers rq
      ∧ (rq_method rq = POST -> ("Content-Type", "application/json") ∈ rq_headers rq)
      ∧ String.prefix api_root (rq_url rq) = true
  | AcquireToken _ => False
  | _ => True
  end.

(** The exceptions an authenticated operation raises once it holds a
    token: the one of a status check, or a built-in one. *)
Definition expected (e : exn) : Prop :=
  builtin e = true ∨ ∃ status body, e = ApiError status body.

Definition is_export (op : operation) : bool :=
  match op with
  | ExportDocumentation _ _ => true
  | _ => false
  end.

(** What is asked of an event of an operation: it is secured, and it
    touches no file unless the operation is the export. *)
Definition event_ok (rt : Runtime) (export : bool) (tok : json) (ev : event) : Prop :=
  secured rt tok ev ∧ (export = false -> file_free ev = true).

(** A computation run on instance [me] leaves the instance as it is, adds
    events that satisfy [P] to the trace, leaves the files as they are when
    none of these events touches a file, and raises only exceptions that
    satisfy [Q]. *)
Definition behaves {A} (me : PBIManager) (P : event -> Prop) (Q : exn -> Prop) (m : M A)
  : Prop :=
  ∀ s, self s = me ->
    self (snd (m s)) = me
    ∧ (∃ evs,
         trace (world (snd (m s))) = (trace (world s) ++ evs)%list
         ∧ Forall P evs
         ∧ (Forall (λ ev, file_free ev = true) evs ->
            files (world (snd (m s))) = files (world s)))
    ∧ (∀ e, fst (m s) = inl e -> Q e).

(** The detail requests of [get_reports_with_datasets] for a list of
    reports. *)
Definition detail_requests (rt : Runtime) (tok : json) (workspace_id : string)
    (reports : list json) : list Request :=
  map (λ report, dataset_detail_request rt tok workspace_id (field report "datasetId"))
    (filter (λ report, has_dataset report = true) reports).

(** More mocks. *)
Definition granting_provider (rq : TokenRequest) : option (list (string * json)) :=
  Some [("token_type", JStr "Bearer"); ("access_token", JStr "fresh")].

(** A service whose 200 answers carry a body that is not JSON. *)
Definition html_service (rq : Request) : option Response :=
  respond 200 "<html>gateway</html>" None.

(** A service whose query answers have a result without tables. *)
Definition no_tables_service (rq : Request) : option Response :=
  respond 200 "" (Some (JObj [("results", JArr [JObj []])])).

(** A service that lists the reports and then loses the connection. *)
Definition flaky_service (rq : Request) : option Response :=
  if String.eqb (rq_url rq) "https://api.powerbi.com/v1.0/myorg/groups/w/reports"
  then respond 200 "" (Some reports_payload)
  else None.

Definition read_only_world (service : Request -> option Response) : World :=
  {| remote := λ _, service; identity := λ _, no_provider; writable := λ _, false;
     files := ∅; trace := [] |}.

Definition read_only_state (tok : json) (service : Request -> option Response) : State :=
  {| self := mock_client tok; writers := ∅; world := read_only_world service |}.

Definition the_report : json :=
  JObj [("id", JStr "r1"); ("name", JStr "Sales report"); ("datasetId", JStr "d1")].

Definition two_tables_payload : json :=
  JObj [("informationProtectionLabel", JNull);
        ("results",
         JArr [JObj [("tables", JArr [JObj [("rows", JArr [JObj [("a", JNum 1)]])];
                                      JObj [("rows", JArr [JObj [("b", JNum 2)]])]])];
               JObj [("tables", JArr [])]])].

(** * Properties *)

(** ** How the monad runs *)

Lemma run_bind {A B} (m : M A) (f : A -> M B) (s : State) :
  (m ≫= f) s = match m s with
               | (inl e, s') => (inl e, s')
               | (inr x, s') => f x s'
               end.
Proof. reflexivity. Qed.

Lemma run_ret {A} (x : A) (s : State) : (mret x : M A) s = (inr x, s).
Proof. reflexivity. Qed.

Lemma run_throw {A} (e : exn) (s : State) : (mthrow e : M A) s = (inl e, s).
Proof. reflexivity. Qed.

Lemma run_get_self (s : State) : get_self s = (inr (self s), s).
Proof. reflexivity. Qed.

Lemma run_requests_send (rq : Request) (s : State) (r : Response) :
  remote (world s) (trace (world s)) rq = Some r ->
  requests_send rq s = (inr r, log (Http rq) s).
Proof. intros H. unfold requests_send. rewrite H. reflexivity. Qed.


Lemma is_none_false (v : json) : v ≠ JNull -> is_none v = false.
Proof. destruct v; simpl; congruence. Qed.

(** The three messages never coincide: the exceptions of the
    specification are told apart by what the code raises. *)
Lemma ApiError_not_NotAuthenticated (status : Z) (body : string) :
  ApiError status body ≠ NotAuthenticatedError.
Proof. unfold ApiError, NotAuthenticatedError. intros H. inversion H. Qed.


(** ** Subscripting and frames *)

Lemma py_getitem_error (v : json) (k : subscript) (e : exn) :
  py_getitem v k = inl e -> QueryResultShapeError e = true.
Proof.
  destruct v, k; simpl; intros H; repeat case_match; inversion H; reflexivity.
Qed.

Lemma rows_of_payload_error (payload : json) (e : exn) :
  rows_of_payload payload = inl e -> QueryResultShapeError e = true.
Proof.
  unfold rows_of_payload, mbind, result_bind.
  repeat (match goal with
          | |- context [match py_getitem ?v ?k with _ => _ end] =>
              let E := fresh "E" in
              destruct (py_getitem v k) eqn:E;
              [intros H; inversion H; subst; eapply py_getitem_error; exact E |]
          end).
  apply py_getitem_error.
Qed.









Lemma frame_of_records_length (rt : Runtime) (records : list json)
    (columns : option (list string)) :
  length (df_rows (frame_of_records rt records columns)) = length records.
Proof. unfold frame_of_records. cbn [df_rows]. rewrite length_map, length_seq. reflexivity. Qed.

(** Row [i] of the frame of a list of records: for each column, the cell
    stored at position [i] of the column built from the entries of the
    records. *)
Lemma frame_of_records_row (rt : Runtime) (records : list json)
    (columns : option (list string)) (i : nat) :
  (i < length records)%nat ->
  df_rows (frame_of_records rt records columns) !! i
  = Some (map (λ c, stored rt (raw_column records c) i)
            (df_columns (frame_of_records rt records columns))).
Proof.
  intros Hi. unfold frame_of_records. cbn [df_rows df_columns].
  rewrite list_lookup_fmap, lookup_seq_lt by exact Hi. reflexivity.
Qed.

Lemma raw_column_lookup (records : list json) (column : string) (i : nat) (r : json) :
  records !! i = Some r -> raw_column records column !! i = Some (raw_entry r column).
Proof. intros Hi. unfold raw_column. rewrite list_lookup_fmap, Hi. reflexivity. Qed.

(** In a column that is kept, the cell at a position is the entry there. *)
Lemma stored_kept (rt : Runtime) (entries : list raw) (i : nat) (entry : raw) :
  kept rt entries -> entries !! i = Some entry -> stored rt entries i = plain entry.
Proof.
  unfold kept, stored. intros -> Hi.
  rewrite nth_lookup, list_lookup_fmap, Hi. reflexivity.
Qed.

(** ** Outcomes in a row *)

Lemma first_error_all_ok {A} (xs : list A) : first_error (map inr xs) = None.
Proof. induction xs as [| x xs IH]; simpl; [reflexivity | exact IH]. Qed.

Lemma completed_all_ok {A} (xs : list A) : completed (map inr xs) = xs.
Proof. induction xs as [| x xs IH]; simpl; [reflexivity | rewrite IH; reflexivity]. Qed.

Lemma completed_before_error {A} (outcomes : list (result A)) (e : exn) :
  first_error outcomes = Some e -> (length (completed outcomes) < length outcomes)%nat.
Proof.
  induction outcomes as [| [e' | x] rest IH]; simpl; intros H.
  - discriminate H.
  - lia.
  - specialize (IH H). lia.
Qed.

Lemma length_answers (service : list event -> Request -> option Response)
    (rqs : list Request) :
  ∀ t, length (answers service t rqs) = length rqs.
Proof. induction rqs as [| rq rest IH]; intros t; simpl; [reflexivity | rewrite IH; reflexivity]. Qed.

Lemma http_requests_app (t1 t2 : list event) :
  http_requests (t1 ++ t2) = (http_requests t1 ++ http_requests t2)%list.
Proof. unfold http_requests. apply omap_app. Qed.

(** ** Nothing but [get_token] assigns to the instance *)

Create HintDb frame discriminated.

Lemma keeps_self_ret {A} (x : A) : keeps_self (mret x : M A).
Proof. intros s. reflexivity. Qed.

Lemma keeps_self_throw {A} (e : exn) : keeps_self (mthrow e : M A).
Proof. intros s. reflexivity. Qed.

Lemma keeps_self_lift {A} (r : result A) : keeps_self (lift r).
Proof. intros s. reflexivity. Qed.

Lemma keeps_self_get_self : keeps_self get_self.
Proof. intros s. reflexivity. Qed.

Lemma keeps_self_emit (ev : event) : keeps_self (emit ev).
Proof. intros s. reflexivity. Qed.

Lemma keeps_self_print (m : message) : keeps_self (print m).
Proof. intros s. reflexivity. Qed.

Lemma keeps_self_requests_send (rq : Request) : keeps_self (requests_send rq).
Proof.
  intros s. unfold requests_send.
  destruct (remote (world s) (trace (world s)) rq); reflexivity.
Qed.

Lemma keeps_self_requests_get (url : string) (headers : list (string * string)) :
  keeps_self (requests_get url headers).
Proof. apply keeps_self_requests_send. Qed.

Lemma keeps_self_requests_post (url : string) (headers : list (string * string))
    (body : option json) :
  keeps_self (requests_post url headers body).
Proof. apply keeps_self_requests_send. Qed.

Lemma keeps_self_response_json (r : Response) : keeps_self (response_json r).
Proof. intros s. unfold response_json. destruct (json_body r); reflexivity. Qed.

Lemma keeps_self_enter (path : string) : keeps_self (ExcelWriter_enter path).
Proof. intros s. unfold ExcelWriter_enter. destruct (writable (world s) path); reflexivity. Qed.

Lemma keeps_self_to_excel (rt : Runtime) (path sheet_name : string) (df : DataFrame) :
  keeps_self (to_excel rt path sheet_name df).
Proof.
  intros s. unfold to_excel.
  destruct (excel_write rt sheet_name df) as [[e [partial |]] |]; reflexivity.
Qed.

Lemma keeps_self_exit (path : string) : keeps_self (ExcelWriter_exit path).
Proof.
  intros s. unfold ExcelWriter_exit. destruct (default [] (writers s !! path)); reflexivity.
Qed.

Lemma keeps_self_bind {A B} (m : M A) (f : A -> M B) :
  keeps_self m -> (∀ x, keeps_self (f x)) -> keeps_self (m ≫= f).
Proof.
  intros Hm Hf s. rewrite run_bind. specialize (Hm s).
  destruct (m s) as [[e | x] s1]; simpl in *; [exact Hm |].
  rewrite Hf. exact Hm.
Qed.

Lemma keeps_self_try_reraise {A} (body : M A) (handler : exn -> M unit) :
  keeps_self body -> (∀ e, keeps_self (handler e)) -> keeps_self (try_reraise body handler).
Proof.
  intros Hb Hh s. unfold try_reraise. specialize (Hb s).
  destruct (body s) as [[e | x] s1]; simpl in *; [| exact Hb].
  specialize (Hh e s1). destruct (handler e s1) as [[e' | u] s2]; simpl in *; congruence.
Qed.

Lemma keeps_self_try_finally {A} (body : M A) (final : M unit) :
  keeps_self body -> keeps_self final -> keeps_self (try_finally body final).
Proof.
  intros Hb Hf s. unfold try_finally. specialize (Hb s).
  destruct (body s) as [r s1]; simpl in *.
  specialize (Hf s1). destruct (final s1) as [[e' | u] s2]; simpl in *; congruence.
Qed.

Lemma keeps_self_for_each {A B} (body : A -> M B) (l : list A) :
  (∀ x, keeps_self (body x)) -> keeps_self (for_each body l).
Proof.
  intros Hb. induction l as [| x rest IH]; simpl.
  - apply keeps_self_ret.
  - apply keeps_self_bind; [apply Hb |]. intros y.
    apply keeps_self_bind; [exact IH |]. intros ys. apply keeps_self_ret.
Qed.

#[local] Hint Resolve keeps_self_ret keeps_self_throw keeps_self_lift keeps_self_get_self
  keeps_self_emit keeps_self_print keeps_self_requests_get keeps_self_requests_post
  keeps_self_response_json keeps_self_enter keeps_self_to_excel keeps_self_exit : frame.

(** Walks down a method: binds, branches and loops. *)
Ltac frame :=
  repeat first
    [ progress cbv zeta
    | apply keeps_self_bind; [| intros ?]
    | apply keeps_self_try_reraise; [| intros ?]
    | apply keeps_self_try_finally
    | apply keeps_self_for_each; intros ?
    | match goal with
      | |- keeps_self (if ?b then _ else _) => destruct b
      end
    | solve [auto with frame] ].

(** ** Only the status checks raise [Exception] *)







Lemma library_builtin (e : library_error) : builtin (library e) = true.
Proof. destruct e; reflexivity. Qed.

Lemma py_get_error (d : json) (key : string) (default : json) (e : exn) :
  py_get d key default = inl e -> builtin e = true.
Proof. destruct d; simpl; intros H; inversion H; reflexivity. Qed.

Lemma py_iter_error (v : json) (e : exn) : py_iter v = inl e -> builtin e = true.
Proof. destruct v; simpl; intros H; inversion H; reflexivity. Qed.

Lemma py_get_dict (report : json) (key : string) :
  is_dict report = true -> py_get report key JNull = inr (field report key).
Proof. destruct report; try discriminate. reflexivity. Qed.




Section Properties.

Variable rt : Runtime.

(** The check [self.access_token is None] is the first thing every
    authenticated method does. *)
Lemma call_without_token (op : operation) (s : State) :
  authenticated op = true ->
  access_token (self s) = JNull ->
  call rt op s = (inl NotAuthenticatedError, s).
Proof.
  intros Hop Htok.
  destruct op; try discriminate Hop; unfold call;
    rewrite run_bind;
    [ unfold get_list_of_datasets | unfold get_list_of_reports
    | unfold get_reports_with_datasets | unfold execute_query
    | unfold get_documentation | unfold refresh_dataset ];
    rewrite run_bind, run_get_self, Htok; reflexivity.
Qed.

(** C1. An authenticated operation called while the token is [None] raises
    the no-token exception and leaves the whole state as it was: the trace
    has no new event, so no request was sent and nothing else happened
    before the check. *)
Theorem token_check_comes_first (op : operation) (s : State) :
  authenticated op = true ->
  access_token (self s) = JNull ->
  call rt op s = (inl NotAuthenticatedError, s)
  ∧ trace (world (snd (call rt op s))) = trace (world s).
Proof.
  intros Hop Htok. rewrite (call_without_token op s Hop Htok). split; reflexivity.
Qed.

(** C6. Once the refresh endpoint has answered, [refresh_dataset] returns
    normally exactly when the status is 202; with any other status, 200
    included, it raises the exception that carries the status and the body. *)
Theorem refresh_succeeds_iff_202 (workspace_id dataset_id : string) (s : State)
    (resp : Response) :
  access_token (self s) ≠ JNull ->
  remote (world s) (trace (world s))
    (refresh_request rt (access_token (self s)) workspace_id dataset_id) = Some resp ->
  (fst (refresh_dataset rt workspace_id dataset_id s) = inr tt <-> status_code resp = 202)
  ∧ (status_code resp ≠ 202 ->
     fst (refresh_dataset rt workspace_id dataset_id s)
     = inl (ApiError (status_code resp) (text resp))).
Proof.
  intros Htok Hresp.
  apply is_none_false in Htok.
  unfold refresh_dataset. rewrite run_bind, run_get_self. cbv beta. rewrite Htok.
  cbv zeta. rewrite run_bind. unfold requests_post.
  unfold refresh_request in Hresp.
  rewrite (run_requests_send _ _ resp Hresp).
  destruct (Z.eqb_spec (status_code resp) 202) as [Heq | Hne].
  - split; [split; [intros _; exact Heq | intros _; reflexivity] | intros Hne; contradiction].
  - split; [split; [intros H; discriminate H | intros Heq; contradiction] | intros _; reflexivity].
Qed.

(** C4. With a token, once the datasets endpoint has answered: on status
    200 with a JSON object whose [value] (an empty list when the key is
    missing) is a list of objects, [get_list_of_datasets] returns the frame
    pandas builds from these objects with the columns [id] and [name]: one
    row per object, in order, whose two cells are those stored for the
    columns made of the objects' [id] and [name] fields, an object without
    the field contributing the missing marker and not a failure; where
    pandas keeps the two columns as they are, the cells of a row are the
    [id] and the [name] of its object, and the missing value for a field
    the object lacks.  On any other status it raises the exception that
    carries the status and the body. *)
Theorem list_datasets_maps_records (workspace_id : string) (s : State) (resp : Response) :
  access_token (self s) ≠ JNull ->
  remote (world s) (trace (world s))
    (datasets_request rt (access_token (self s)) workspace_id) = Some resp ->
  (status_code resp = 200 ->
   ∀ fields items,
     json_body resp = Some (JObj fields) ->
     py_get (JObj fields) "value" (JArr []) = inr (JArr items) ->
     forallb is_dict items = true ->
     ∃ df,
       fst (get_list_of_datasets rt workspace_id s) = inr df
       ∧ df_columns df = ["id"; "name"]
       ∧ length (df_rows df) = length items
       ∧ (∀ i, (i < length items)%nat ->
            df_rows df !! i
            = Some [stored rt (map (λ r, raw_entry r "id") items) i;
                    stored rt (map (λ r, raw_entry r "name") items) i])
       ∧ (kept rt (raw_column items "id") -> kept rt (raw_column items "name") ->
          ∀ i r, items !! i = Some r ->
            df_rows df !! i
            = Some [plain (raw_entry r "id"); plain (raw_entry r "name")]))
  ∧ (status_code resp ≠ 200 ->
     fst (get_list_of_datasets rt workspace_id s)
     = inl (ApiError (status_code resp) (text resp))).
Proof.
  intros Htok Hresp.
  apply is_none_false in Htok.
  unfold get_list_of_datasets. rewrite run_bind, run_get_self. cbv beta. rewrite Htok.
  cbv zeta. rewrite run_bind. unfold requests_get.
  unfold datasets_request in Hresp.
  rewrite (run_requests_send _ _ resp Hresp).
  split.
  - intros H200 fields items Hbody Hvalue Hdicts.
    rewrite H200. change (200 =? 200) with true. cbv iota.
    rewrite run_bind. unfold response_json. rewrite Hbody, run_ret.
    rewrite run_bind. unfold lift at 1. rewrite Hvalue.
    unfold lift, pd_DataFrame. rewrite Hdicts. cbn [fst].
    exists (frame_of_records rt items (Some ["id"; "name"])).
    split; [reflexivity |]. split; [reflexivity |].
    split; [apply frame_of_records_length |].
    split; [intros i Hi; rewrite (frame_of_records_row rt items _ i Hi); reflexivity |].
    intros Hid Hname i r Hi.
    rewrite (frame_of_records_row rt items _ i (lookup_lt_Some _ _ _ Hi)).
    cbn [frame_of_records df_columns map].
    rewrite (stored_kept rt _ i _ Hid (raw_column_lookup items "id" i r Hi)).
    rewrite (stored_kept rt _ i _ Hname (raw_column_lookup items "name" i r Hi)).
    reflexivity.
  - intros Hne. apply Z.eqb_neq in Hne. rewrite Hne. reflexivity.
Qed.

(** [execute_query] with a token: one request, then the outcome of the
    answer. *)
Lemma execute_query_run (query_input dataset_id : string) (s : State) :
  access_token (self s) ≠ JNull ->
  let rq := query_request rt (access_token (self s)) query_input dataset_id in
  let answer := remote (world s) (trace (world s)) rq in
  execute_query rt query_input dataset_id s
  = (query_outcome rt answer, add_events (query_events rt rq answer) s).
Proof.
  intros Htok rq answer.
  apply is_none_false in Htok.
  unfold execute_query. rewrite run_bind, run_get_self. cbv beta. rewrite Htok.
  cbv zeta. rewrite run_bind. unfold requests_post, requests_send.
  subst answer rq. unfold query_outcome, query_events, query_request.
  destruct (remote (world s) (trace (world s)) _) as [resp |]; [| reflexivity].
  destruct (status_code resp =? 200); [| reflexivity].
  rewrite run_bind. unfold response_json.
  destruct (json_body resp) as [payload |]; [| reflexivity].
  rewrite run_ret. unfold try_reraise. rewrite run_bind. unfold lift.
  destruct (rows_of_payload payload) as [e | rows]; simpl.
  - unfold add_events, log. simpl. rewrite <- app_assoc. reflexivity.
  - destruct (pd_DataFrame rt rows None) as [e | df]; simpl; [| reflexivity].
    unfold add_events, log. simpl. rewrite <- app_assoc. reflexivity.
Qed.


Lemma query_events_ok (rq : Request) (answer : option Response) (df : DataFrame) :
  query_outcome rt answer = inr df -> query_events rt rq answer = [Http rq].
Proof.
  unfold query_outcome, query_events.
  destruct answer as [resp |]; [| discriminate].
  destruct (status_code resp =? 200); [| discriminate].
  destruct (json_body resp) as [payload |]; [| discriminate].
  intros ->. reflexivity.
Qed.

(** The loop of [get_documentation] from a state where the writer at [path]
    holds [book]. *)
Lemma doc_loop_run (dataset_id path : string) (words : list string) :
  ∀ (s : State) (book : Workbook),
    access_token (self s) ≠ JNull ->
    writers s !! path = Some book ->
    for_each
      (λ word, df ← execute_query rt (query_word word) dataset_id;
               to_excel rt path word df)
      words s
    = let '(r, b, evs) :=
        export_loop rt (remote (world s)) (access_token (self s)) dataset_id
          (trace (world s)) words book in
      (match r with
       | Some e => inl e
       | None => inr (map (λ _, tt) words)
       end,
       with_writers (<[path := b]> (writers s)) (add_events evs s)).
Proof.
  induction words as [| word rest IH]; intros s book Htok Hbook.
  - cbn [for_each export_loop map]. rewrite run_ret. f_equal.
    rewrite (insert_id _ _ _ Hbook).
    unfold add_events. rewrite app_nil_r. destruct s as [me ws [? ? ? ? ?]]. reflexivity.
  - cbn [for_each export_loop].
    rewrite !run_bind.
    pose proof (execute_query_run (query_word word) dataset_id s Htok) as Hq.
    cbv zeta in Hq. rewrite Hq. clear Hq.
    set (rq := query_request rt (access_token (self s)) (query_word word) dataset_id).
    destruct (query_outcome rt (remote (world s) (trace (world s)) rq)) as [e | df] eqn:Hout.
    + f_equal. rewrite (insert_id _ _ _ Hbook). unfold add_events, with_writers. reflexivity.
    + rewrite (query_events_ok _ _ _ Hout).
      unfold to_excel at 1.
      cbn [writers add_events with_world]. rewrite Hbook. cbn [default from_option id].
      destruct (excel_write rt word df) as [[e [partial |]] |].
      * reflexivity.
      * f_equal. rewrite (insert_id _ _ _ Hbook). unfold add_events, with_writers.
        reflexivity.
      * set (s2 := with_writers _ (add_events [Http rq] s)).
        assert (Htok2 : access_token (self s2) ≠ JNull) by exact Htok.
        assert (Hbook2 : writers s2 !! path = Some (book ++ [(word, df)])%list)
          by apply lookup_insert_eq.
        specialize (IH s2 _ Htok2 Hbook2).
        change (access_token (self s2)) with (access_token (self s)) in IH.
        change (remote (world s2)) with (remote (world s)) in IH.
        change (trace (world s2)) with (trace (world s) ++ [Http rq])%list in IH.
        rewrite run_bind, IH. clear IH.
        destruct (export_loop rt (remote (world s)) (access_token (self s)) dataset_id
                    (trace (world s) ++ [Http rq]) rest (book ++ [(word, df)]))
          as [[r b] evs].
        destruct r; rewrite ?run_ret; (f_equal;
          unfold s2, add_events, with_writers, with_world, with_trace;
          cbn [self writers world remote identity writable files trace];
          rewrite insert_insert_eq, <- !app_assoc; reflexivity).
Qed.

(** [get_documentation] with a token and a path that can be opened: the
    state it ends in and what it returns.  The save raises when no sheet
    was written, and its exception is then the one of the method. *)
Lemma get_documentation_run (dataset_id path_to_save : string) (s : State) :
  access_token (self s) ≠ JNull ->
  writable (world s) (doc_path dataset_id path_to_save) = true ->
  let path := doc_path dataset_id path_to_save in
  let '(r, b, evs) :=
    export_loop rt (remote (world s)) (access_token (self s)) dataset_id
      (trace (world s) ++ [OpenFile path]) doc_var_list [] in
  get_documentation rt dataset_id path_to_save s
  = (match b, r with
     | [], _ => inl IndexError
     | _ :: _, Some e => inl e
     | _ :: _, None => inr tt
     end,
     with_writers (delete path (writers s))
       (with_world
          (with_files (<[path := b]> (files (world s)))
             (with_trace
                (trace (world s) ++ [OpenFile path] ++ evs ++
                 match b, r with
                 | [], _ => []
                 | _ :: _, Some _ => [SaveFile path b]
                 | _ :: _, None => [SaveFile path b; Print (DocumentationSaved path)]
                 end)
                (world s)))
          s)).
Proof.
  intros Htok Hopen path.
  change (writable (world s) path = true) in Hopen.
  pose proof (doc_loop_run dataset_id path doc_var_list) as Hloop.
  destruct (export_loop rt (remote (world s)) (access_token (self s)) dataset_id
              (trace (world s) ++ [OpenFile path]) doc_var_list []) as [[r b] evs] eqn:Hspec.
  unfold get_documentation. rewrite run_bind, run_get_self. cbv beta.
  rewrite (is_none_false _ Htok). cbv zeta.
  fold (doc_path dataset_id path_to_save). fold path.
  rewrite run_bind. unfold ExcelWriter_enter at 1. rewrite Hopen.
  set (s1 := with_writers _ _).
  rewrite run_bind. unfold try_finally.
  assert (Hbook1 : writers s1 !! path = Some []) by apply lookup_insert_eq.
  rewrite (Hloop s1 [] Htok Hbook1).
  change (access_token (self s1)) with (access_token (self s)).
  change (remote (world s1)) with (remote (world s)).
  change (trace (world s1)) with (trace (world s) ++ [OpenFile path])%list.
  rewrite Hspec.
  unfold ExcelWriter_exit.
  cbn [writers with_writers add_events with_world].
  rewrite lookup_insert_eq. cbn [default from_option id].
  destruct b as [| sheet sheets]; destruct r as [e |];
    try (unfold print, emit, log);
    (f_equal;
     cbv [s1 add_events with_writers with_world with_files with_trace log
          self writers world remote identity writable files trace];
     rewrite ?delete_insert_eq, ?insert_insert_eq, <- ?app_assoc, ?app_nil_r; reflexivity).
Qed.

(** When the frames that the queries returned are all written, the loop
    is decided by the outcomes of the queries. *)
Lemma export_loop_written (service : list event -> Request -> option Response) (tok : json)
    (dataset_id : string) (words : list string) :
  ∀ (t : list event) (book : Workbook),
    let rqs := doc_requests rt tok dataset_id words in
    let outs := map (query_outcome rt) (answers service t rqs) in
    writes_ok rt words (completed outs) ->
    export_loop rt service tok dataset_id t words book
    = (first_error outs, (book ++ zip words (completed outs))%list,
       queries_events rt service t rqs).
Proof.
  induction words as [| word rest IH]; intros t book; cbv zeta; intros Hwrites.
  - cbn. rewrite app_nil_r. reflexivity.
  - cbn [doc_requests map answers export_loop queries_events] in *.
    set (rq := query_request rt tok (query_word word) dataset_id) in *.
    destruct (query_outcome rt (service t rq)) as [e | df] eqn:Hout.
    + cbn [first_error completed zip_with]. rewrite !app_nil_r. reflexivity.
    + cbn [first_error completed zip_with] in *.
      unfold writes_ok in Hwrites. cbn [length take] in Hwrites.
      inversion Hwrites as [| ? ? ? ? Hwrite Hrest]; subst.
      rewrite Hwrite.
      fold (doc_requests rt tok dataset_id rest) in *.
      specialize (IH (t ++ [Http rq])%list (book ++ [(word, df)])%list Hrest).
      cbv zeta in IH. rewrite IH.
      rewrite (query_events_ok _ _ _ Hout), <- app_assoc. reflexivity.
Qed.

Lemma query_events_file_free (rq : Request) (answer : option Response) :
  Forall (λ ev, file_free ev = true) (query_events rt rq answer).
Proof.
  unfold query_events. constructor; [reflexivity |].
  destruct answer as [resp |]; [| constructor].
  destruct (status_code resp =? 200); [| constructor].
  destruct (json_body resp) as [payload |]; [| constructor].
  destruct (_ ≫= _); repeat constructor.
Qed.

Lemma queries_events_file_free (service : list event -> Request -> option Response)
    (rqs : list Request) :
  ∀ t, Forall (λ ev, file_free ev = true) (queries_events rt service t rqs).
Proof.
  induction rqs as [| rq rest IH]; intros t; cbn [queries_events]; [constructor |].
  apply Forall_app. split; [apply query_events_file_free |].
  destruct (query_outcome rt (service t rq)); [constructor | apply IH].
Qed.

Lemma queries_events_all_ok (service : list event -> Request -> option Response)
    (rqs : list Request) :
  ∀ t dfs,
    map (query_outcome rt) (answers service t rqs) = map inr dfs ->
    queries_events rt service t rqs = map Http rqs.
Proof.
  induction rqs as [| rq rest IH]; intros t dfs H; cbn [queries_events map];
    [reflexivity |].
  destruct dfs as [| df dfs]; cbn [answers map] in H; [discriminate H |].
  injection H as Hhead Htail.
  rewrite Hhead, (query_events_ok _ _ _ Hhead). cbn [app].
  f_equal. eapply IH. exact Htail.
Qed.

(** A query that raises ends the loop with an exception, whatever the
    writes do. *)
Lemma export_loop_fails (service : list event -> Request -> option Response) (tok : json)
    (dataset_id : string) (words : list string) :
  ∀ (t : list event) (book : Workbook) (e : exn),
    first_error (map (query_outcome rt)
                   (answers service t (doc_requests rt tok dataset_id words))) = Some e ->
    ∃ e', fst (fst (export_loop rt service tok dataset_id t words book)) = Some e'.
Proof.
  induction words as [| word rest IH]; intros t book e He.
  - discriminate He.
  - cbn [doc_requests map answers export_loop first_error] in *.
    set (rq := query_request rt tok (query_word word) dataset_id) in *.
    destruct (query_outcome rt (service t rq)) as [e0 | df].
    + eexists. reflexivity.
    + destruct (excel_write rt word df) as [[le [partial |]] |];
        [eexists; reflexivity | eexists; reflexivity |].
      fold (doc_requests rt tok dataset_id rest) in He.
      destruct (IH (t ++ [Http rq])%list (book ++ [(word, df)])%list e He) as [e' He'].
      destruct (export_loop rt service tok dataset_id (t ++ [Http rq]) rest
                  (book ++ [(word, df)])) as [[r b] evs].
      exists e'. exact He'.
Qed.

(** C5, as the code has it.  With a token and an output file that can be
    opened, the outcomes of the four queries of [get_documentation], each
    the outcome of [execute_query] for one word of [doc_var_list], decide
    the run.  When all four return and their frames are written, the
    method returns, the file [Documentation_<dataset id>.xlsx] joined to
    the output directory holds the sheets [columns], [tables], [measures],
    [relations] in that order, no other file changes, and the events are:
    the file is opened, the four requests are sent in order, the workbook
    is saved, the message is printed.  When one of the queries raises, the
    method raises; when a sheet was written before, what it raises is the
    exception of that query. *)
Theorem export_documentation_four_sheets (dataset_id path_to_save : string) (s : State) :
  access_token (self s) ≠ JNull ->
  writable (world s) (doc_path dataset_id path_to_save) = true ->
  let path := doc_path dataset_id path_to_save in
  let outs := doc_outcomes rt s dataset_id path_to_save in
  let s' := snd (get_documentation rt dataset_id path_to_save s) in
  path = os_path_join path_to_save ("Documentation_" +:+ dataset_id +:+ ".xlsx")
  ∧ length outs = 4%nat
  ∧ (∀ c t m r, outs = [inr c; inr t; inr m; inr r] ->
       excel_write rt "columns" c = None ->
       excel_write rt "tables" t = None ->
       excel_write rt "measures" m = None ->
       excel_write rt "relations" r = None ->
       let book := [("columns", c); ("tables", t); ("measures", m); ("relations", r)] in
       fst (get_documentation rt dataset_id path_to_save s) = inr tt
       ∧ files (world s') = <[path := book]> (files (world s))
       ∧ trace (world s')
         = (trace (world s) ++ [OpenFile path]
            ++ map Http (doc_requests rt (access_token (self s)) dataset_id doc_var_list)
            ++ [SaveFile path book; Print (DocumentationSaved path)])%list)
  ∧ (∀ e, first_error outs = Some e ->
       (∃ e', fst (get_documentation rt dataset_id path_to_save s) = inl e')
       ∧ (completed outs ≠ [] ->
          writes_ok rt doc_var_list (completed outs) ->
          fst (get_documentation rt dataset_id path_to_save s) = inl e)).
Proof.
  intros Htok Hopen path outs s'.
  pose proof (get_documentation_run dataset_id path_to_save s Htok Hopen) as Hrun.
  cbv zeta in Hrun. fold path in Hrun.
  subst outs. unfold doc_outcomes. fold path.
  set (outs := map (query_outcome rt) _).
  split; [reflexivity |]. split.
  { unfold outs. rewrite length_map, length_answers. reflexivity. }
  split.
  - intros c t m r Houts Hc Ht Hm Hr.
    assert (Hwrites : writes_ok rt doc_var_list (completed outs)).
    { rewrite Houts. unfold writes_ok. cbn. repeat constructor; assumption. }
    rewrite (export_loop_written _ _ _ _ _ _ Hwrites) in Hrun.
    fold outs in Hrun.
    assert (Hevs : queries_events rt (remote (world s)) (trace (world s) ++ [OpenFile path])
                     (doc_requests rt (access_token (self s)) dataset_id doc_var_list)
                   = map Http (doc_requests rt (access_token (self s)) dataset_id doc_var_list)).
    { apply (queries_events_all_ok _ _ _ [c; t; m; r]). exact Houts. }
    rewrite Hevs, Houts in Hrun. cbn [first_error completed app zip_with doc_var_list] in Hrun.
    unfold s'. rewrite Hrun. cbn [fst snd].
    split; [reflexivity |]. split; reflexivity.
  - intros e He. split.
    + destruct (export_loop_fails (remote (world s)) (access_token (self s)) dataset_id
                  doc_var_list (trace (world s) ++ [OpenFile path]) [] e He) as [e' He'].
      destruct (export_loop rt (remote (world s)) (access_token (self s)) dataset_id
                  (trace (world s) ++ [OpenFile path]) doc_var_list []) as [[r b] evs].
      cbn [fst] in He'. subst r. rewrite Hrun.
      destruct b; eexists; reflexivity.
    + intros Hsheets Hwrites.
      rewrite (export_loop_written _ _ _ _ _ _ Hwrites) in Hrun.
      fold outs in Hrun. rewrite He in Hrun. rewrite Hrun. cbn [app fst].
      destruct (completed outs) as [| df dfs]; [contradiction |].
      reflexivity.
Qed.

(** C10. With a token and an output file that can be opened,
    [get_documentation] first creates or truncates the file: entering the
    writer leaves an empty file at the path and sends no request, and the
    opening is the first event of the run.  When one of the queries raises
    after the frames returned before it were written, the file at the path
    holds the sheets of those frames, fewer than four, and nothing removes
    or renames it: with at least one sheet the method raises the exception
    of the query and the last event is the saving of the workbook; with no
    sheet the save itself raises, the exception of the method is that of
    the save, and the file at the path holds no workbook. *)
Theorem export_documentation_partial_file (dataset_id path_to_save : string) (s : State) :
  access_token (self s) ≠ JNull ->
  writable (world s) (doc_path dataset_id path_to_save) = true ->
  let path := doc_path dataset_id path_to_save in
  let outs := doc_outcomes rt s dataset_id path_to_save in
  let s' := snd (get_documentation rt dataset_id path_to_save s) in
  (∃ s1, ExcelWriter_enter path s = (inr tt, s1)
         ∧ files (world s1) !! path = Some []
         ∧ trace (world s1) = (trace (world s) ++ [OpenFile path])%list
         ∧ http_requests (trace (world s1)) = http_requests (trace (world s)))
  ∧ (∃ rest, trace (world s') = (trace (world s) ++ OpenFile path :: rest)%list)
  ∧ (∀ e, first_error outs = Some e ->
       writes_ok rt doc_var_list (completed outs) ->
       let book := zip doc_var_list (completed outs) in
       (length book < 4)%nat
       ∧ files (world s') !! path = Some book
       ∧ (book ≠ [] ->
          fst (get_documentation rt dataset_id path_to_save s) = inl e
          ∧ ∃ evs, Forall (λ ev, file_free ev = true) evs
                   ∧ trace (world s')
                     = (trace (world s) ++ [OpenFile path] ++ evs
                        ++ [SaveFile path book])%list)
       ∧ (book = [] ->
          fst (get_documentation rt dataset_id path_to_save s) = inl IndexError
          ∧ ∃ evs, Forall (λ ev, file_free ev = true) evs
                   ∧ trace (world s') = (trace (world s) ++ [OpenFile path] ++ evs)%list)).
Proof.
  intros Htok Hopen path outs s'.
  pose proof (get_documentation_run dataset_id path_to_save s Htok Hopen) as Hrun.
  cbv zeta in Hrun. fold path in Hrun.
  change (writable (world s) path = true) in Hopen.
  subst outs. unfold doc_outcomes. fold path.
  set (outs := map (query_outcome rt) _).
  split; [| split].
  - unfold ExcelWriter_enter. rewrite Hopen. eexists. split; [reflexivity |].
    cbn [files world with_writers log with_world with_trace with_files trace].
    split; [apply lookup_insert_eq |]. split; [reflexivity |].
    rewrite http_requests_app. simpl. apply app_nil_r.
  - destruct (export_loop rt (remote (world s)) (access_token (self s)) dataset_id
                (trace (world s) ++ [OpenFile path]) doc_var_list []) as [[r b] evs].
    unfold s'. rewrite Hrun.
    cbn [snd trace world with_writers with_world with_files with_trace].
    eexists. reflexivity.
  - intros e He Hwrites. set (book := zip doc_var_list (completed outs)).
    assert (Hlen : length outs = 4%nat).
    { unfold outs. rewrite length_map, length_answers. reflexivity. }
    rewrite (export_loop_written _ _ _ _ _ _ Hwrites) in Hrun.
    fold outs in Hrun. rewrite He in Hrun. cbn [app] in Hrun. fold book in Hrun.
    unfold s'. rewrite Hrun.
    cbn [fst snd trace files world with_writers with_world with_files with_trace].
    split.
    { pose proof (completed_before_error _ _ He) as Hlt. unfold book.
      rewrite length_zip_with. lia. }
    split; [apply lookup_insert_eq |].
    split.
    + intros Hbook. destruct book as [| sheet sheets]; [contradiction |].
      split; [reflexivity |].
      eexists. split; [apply queries_events_file_free |]. reflexivity.
    + intros ->. split; [reflexivity |].
      eexists. split; [apply queries_events_file_free |].
      rewrite app_nil_r. reflexivity.
Qed.

Lemma keeps_self_execute_query (query_input dataset_id : string) :
  keeps_self (execute_query rt query_input dataset_id).
Proof. unfold execute_query. frame. Qed.

Lemma keeps_self_report_entry (workspace_id : string) (headers : list (string * string))
    (report : json) :
  keeps_self (report_entry rt workspace_id headers report).
Proof. unfold report_entry. frame. Qed.

Lemma keeps_self_call (op : operation) :
  op ≠ FetchToken -> keeps_self (call rt op).
Proof.
  intros Hop. destruct op; [contradiction | ..]; unfold call.
  - unfold get_list_of_datasets. frame.
  - unfold get_list_of_reports. frame.
  - unfold get_reports_with_datasets. frame.
  - frame.
  - unfold get_documentation. frame.
  - unfold refresh_dataset. frame.
Qed.

Lemma get_token_credentials (s : State) :
  same_credentials (self (snd (get_token s))) (self s).
Proof.
  unfold get_token. rewrite run_bind, run_get_self. cbv beta.
  rewrite run_bind. unfold acquire_token_for_client.
  destruct (identity (world s) (trace (world s)) _) as [d |].
  - rewrite run_bind. unfold set_access_token. rewrite run_bind, run_get_self. cbv beta.
    destruct (negb _); repeat split.
  - repeat split.
Qed.

Lemma call_credentials (op : operation) (s : State) :
  same_credentials (self (snd (call rt op s))) (self s).
Proof.
  assert (Hcases : op = FetchToken ∨ op ≠ FetchToken)
    by (destruct op; [left; reflexivity | right; discriminate ..]).
  destruct Hcases as [-> | Hop].
  - unfold call. rewrite run_bind.
    pose proof (get_token_credentials s) as H.
    destruct (get_token s) as [[e | u] s1]; exact H.
  - rewrite (keeps_self_call op Hop s). repeat split.
Qed.

Lemma run_credentials (ops : list operation) :
  ∀ s, same_credentials (self (run rt ops s)) (self s).
Proof.
  induction ops as [| op rest IH]; intros s; simpl.
  - repeat split.
  - specialize (IH (snd (call rt op s))).
    pose proof (call_credentials op s) as H.
    unfold same_credentials in *. intuition congruence.
Qed.

(** C7. [__init__] never raises, whatever strings it is given; the
    instance it leaves holds the tenant id, the client id and the client
    secret as given, the scope as the one element of a list, no token, and
    the authority of the tenant; the world, its trace included, is as
    before, so nothing was sent. *)
Theorem init_stores_credentials (tenant client secret sc : string) (s : State) :
  let r := __init__ tenant client secret sc s in
  fst r = inr tt
  ∧ tenant_id (self (snd r)) = tenant
  ∧ client_id (self (snd r)) = client
  ∧ client_secret (self (snd r)) = secret
  ∧ scope (self (snd r)) = [sc]
  ∧ access_token (self (snd r)) = JNull
  ∧ authority (self (snd r)) = "https://login.microsoftonline.com/" +:+ tenant
  ∧ world (snd r) = world s
  ∧ writers (snd r) = writers s.
Proof. cbv zeta. unfold __init__. cbn [fst snd self world writers]. repeat split. Qed.

(** C8. An operation other than [get_token] leaves every attribute of the
    instance as it was; [get_token] leaves every attribute but the token as
    it was; so after any sequence of operations on a fresh instance the
    credentials are those given to [__init__]. *)
Theorem only_get_token_writes_the_instance :
  (∀ op s, op ≠ FetchToken -> self (snd (call rt op s)) = self s)
  ∧ (∀ s, same_credentials (self (snd (call rt FetchToken s))) (self s))
  ∧ (∀ tenant client secret sc ops s0,
       let me := self (run rt ops (snd (__init__ tenant client secret sc s0))) in
       tenant_id me = tenant
       ∧ client_id me = client
       ∧ client_secret me = secret
       ∧ scope me = [sc]
       ∧ authority me = "https://login.microsoftonline.com/" +:+ tenant).
Proof.
  split; [| split].
  - intros op s Hop. apply keeps_self_call. exact Hop.
  - intros s. apply call_credentials.
  - intros tenant client secret sc ops s0 me.
    pose proof (run_credentials ops (snd (__init__ tenant client secret sc s0))) as H.
    exact H.
Qed.

Lemma pd_DataFrame_error (data : json) (columns : option (list string)) (e : exn) :
  pd_DataFrame rt data columns = inl e -> builtin e = true.
Proof.
  unfold pd_DataFrame.
  assert (Hirregular : match frame_irregular rt data columns with
                       | inr df => inr df
                       | inl le => inl (library le)
                       end = inl e -> builtin e = true).
  { destruct (frame_irregular rt data columns) as [le | df]; intros H; inversion H.
    apply library_builtin. }
  destruct data; try exact Hirregular.
  - discriminate.
  - destruct (forallb is_dict items); [discriminate | exact Hirregular].
Qed.


(** One turn of the loop on a report that is a dict. *)
Lemma report_entry_run (workspace_id : string) (tok report : json) (s : State) :
  is_dict report = true ->
  let rq := dataset_detail_request rt tok workspace_id (field report "datasetId") in
  report_entry rt workspace_id [bearer rt tok] report s
  = if py_truthy (field report "datasetId") then
      (match detail_outcome (remote (world s) (trace (world s)) rq) with
       | inl e => inl e
       | inr name => inr (entry report name)
       end,
       log (Http rq) s)
    else (inr (entry report JNull), s).
Proof.
  intros Hdict rq. subst rq.
  unfold report_entry, dataset_detail_request.
  rewrite !run_bind. unfold lift at 1. rewrite (py_get_dict _ "id" Hdict).
  rewrite !run_bind. unfold lift at 1. rewrite (py_get_dict _ "name" Hdict).
  rewrite !run_bind. unfold lift at 1. rewrite (py_get_dict _ "datasetId" Hdict).
  rewrite run_bind.
  destruct (py_truthy (field report "datasetId")); [| reflexivity].
  cbv zeta. rewrite run_bind. unfold requests_get, requests_send, detail_outcome.
  destruct (remote (world s) (trace (world s)) _) as [resp |]; [| reflexivity].
  destruct (status_code resp =? 200); [| reflexivity].
  rewrite run_bind. unfold response_json.
  destruct (json_body resp) as [dataset_data |]; [| reflexivity].
  rewrite run_ret. unfold lift.
  destruct (py_get dataset_data "name" JNull); reflexivity.
Qed.




(** C9, as the code has it.  When the identity provider answers and the
    [access_token] of its answer is falsy, [get_token] raises, and the
    token attribute is whatever the answer carried: the attribute is
    assigned before the check, so the state is not as before.  When the
    answer has no [access_token], or [None], a token acquired before is
    gone, and every authenticated operation then raises the no-token
    exception. *)
Theorem fetch_token_failure_overwrites_token (s : State) (d : list (string * json)) :
  identity (world s) (trace (world s)) (token_request (self s)) = Some d ->
  py_truthy (response_token d) = false ->
  fst (get_token s) = inl AuthenticationError
  ∧ access_token (self (snd (get_token s))) = response_token d
  ∧ (response_token d = JNull ->
     ∀ op, authenticated op = true ->
       call rt op (snd (get_token s)) = (inl NotAuthenticatedError, snd (get_token s))).
Proof.
  intros Hidp Hfalsy.
  assert (Hrun : get_token s
                 = (inl AuthenticationError,
                    with_access_token (response_token d)
                      (log (AcquireToken (token_request (self s))) s))).
  { unfold get_token. rewrite run_bind, run_get_self. cbv beta.
    rewrite run_bind. unfold acquire_token_for_client.
    unfold token_request in Hidp. rewrite Hidp.
    rewrite run_bind. unfold set_access_token. rewrite run_bind, run_get_self. cbv beta.
    fold (response_token d).
    cbn [access_token self with_access_token]. rewrite Hfalsy. reflexivity. }
  rewrite Hrun. cbn [fst snd].
  split; [reflexivity |]. split; [reflexivity |].
  intros Hnone op Hop. apply call_without_token; [exact Hop |].
  cbn [access_token self with_access_token]. exact Hnone.
Qed.

End Properties.

(** * Further properties of the methods *)

Lemma http_requests_snoc (t : list event) (rq : Request) :
  http_requests (t ++ [Http rq]) = (http_requests t ++ [rq])%list.
Proof. rewrite http_requests_app. reflexivity. Qed.

Lemma http_requests_print (t : list event) (m : message) :
  http_requests (t ++ [Print m]) = http_requests t.
Proof. rewrite http_requests_app. simpl. apply app_nil_r. Qed.

(** ** How [behaves] composes *)

Section Behaves.

Variable me : PBIManager.
Variable P : event -> Prop.
Variable Q : exn -> Prop.

Lemma behaves_silent {A} (m : M A) :
  (∀ s, snd (m s) = s) -> (∀ s e, fst (m s) = inl e -> Q e) -> behaves me P Q m.
Proof.
  intros Hstate Hexn s Hs. rewrite Hstate.
  split; [exact Hs |]. split; [| apply Hexn].
  exists []. rewrite app_nil_r. repeat split. constructor.
Qed.

Lemma behaves_ret {A} (x : A) : behaves me P Q (mret x : M A).
Proof. apply behaves_silent; [reflexivity | discriminate]. Qed.

Lemma behaves_throw {A} (e : exn) : Q e -> behaves me P Q (mthrow e : M A).
Proof.
  intros He. apply behaves_silent; [reflexivity |].
  intros s e' H. inversion H; subst. exact He.
Qed.

Lemma behaves_lift {A} (r : result A) :
  (∀ e, r = inl e -> Q e) -> behaves me P Q (lift r).
Proof. intros Hr. apply behaves_silent; [reflexivity |]. intros s e H. apply Hr. exact H. Qed.

Lemma behaves_response_json (r : Response) :
  Q JSONDecodeError -> behaves me P Q (response_json r).
Proof.
  intros HQ. unfold response_json.
  destruct (json_body r); [apply behaves_ret | apply behaves_throw; exact HQ].
Qed.

Lemma behaves_emit (ev : event) :
  P ev -> file_free ev = true -> behaves me P Q (emit ev).
Proof.
  intros HP Hfree s Hs. split; [exact Hs |]. split; [| discriminate].
  exists [ev]. repeat split. constructor; [exact HP | constructor].
Qed.

Lemma behaves_requests_send (rq : Request) :
  P (Http rq) -> Q RequestException -> behaves me P Q (requests_send rq).
Proof.
  intros HP HQ s Hs. unfold requests_send.
  destruct (remote (world s) (trace (world s)) rq); cbn [fst snd].
  - split; [exact Hs |]. split; [| discriminate].
    exists [Http rq]. repeat split. constructor; [exact HP | constructor].
  - split; [exact Hs |]. split; [| intros e H; inversion H; subst; exact HQ].
    exists [Http rq]. repeat split. constructor; [exact HP | constructor].
Qed.

Lemma behaves_enter (path : string) :
  P (OpenFile path) -> Q OSError -> behaves me P Q (ExcelWriter_enter path).
Proof.
  intros HP HQ s Hs. unfold ExcelWriter_enter.
  destruct (writable (world s) path); cbn [fst snd].
  - split; [exact Hs |]. split; [| discriminate].
    exists [OpenFile path]. split; [reflexivity |].
    split; [constructor; [exact HP | constructor] |].
    intros Hfree. inversion Hfree as [| ? ? Hhead]. discriminate Hhead.
  - split; [exact Hs |]. split; [| intros e H; inversion H; subst; exact HQ].
    exists []. rewrite app_nil_r. repeat split. constructor.
Qed.

Lemma behaves_quiet {A} (r : result A) (s s' : State) :
  self s = me -> self s' = self s -> world s' = world s ->
  (∀ e, r = inl e -> Q e) ->
  self s' = me
  ∧ (∃ evs,
       trace (world s') = (trace (world s) ++ evs)%list
       ∧ Forall P evs
       ∧ (Forall (λ ev, file_free ev = true) evs -> files (world s') = files (world s)))
  ∧ (∀ e, r = inl e -> Q e).
Proof.
  intros Hs Hself Hworld HQ. split; [congruence |]. split; [| exact HQ].
  exists []. rewrite Hworld, app_nil_r. repeat split. constructor.
Qed.

Lemma behaves_to_excel (rt : Runtime) (path sheet_name : string) (df : DataFrame) :
  (∀ e, Q (library e)) -> behaves me P Q (to_excel rt path sheet_name df).
Proof.
  intros HQ s Hs. unfold to_excel.
  destruct (excel_write rt sheet_name df) as [[e [partial |]] |]; cbn [fst snd];
    apply behaves_quiet; try reflexivity; try exact Hs;
    intros e' H; inversion H; subst; apply HQ.
Qed.

Lemma behaves_exit (path : string) :
  (∀ book, P (SaveFile path book)) -> Q IndexError -> behaves me P Q (ExcelWriter_exit path).
Proof.
  intros HP HQ s Hs. unfold ExcelWriter_exit.
  destruct (default [] (writers s !! path)) as [| sheet sheets]; cbn [fst snd].
  - apply behaves_quiet; try reflexivity; try exact Hs.
    intros e H. inversion H; subst. exact HQ.
  - split; [exact Hs |]. split; [| discriminate].
    eexists [SaveFile path _]. split; [reflexivity |].
    split; [constructor; [apply HP | constructor] |].
    intros Hfree. inversion Hfree as [| ? ? Hhead]. discriminate Hhead.
Qed.

Lemma behaves_bind {A B} (m : M A) (f : A -> M B) :
  behaves me P Q m -> (∀ x, behaves me P Q (f x)) -> behaves me P Q (m ≫= f).
Proof.
  intros Hm Hf s Hs. rewrite run_bind.
  destruct (Hm s Hs) as (Hself & (evs1 & Ht1 & HP1 & Hf1) & HQ1).
  destruct (m s) as [[e | x] s1]; cbn [fst snd] in *.
  - split; [exact Hself |]. split.
    + exists evs1. repeat split; assumption.
    + intros e' H. inversion H; subst. apply HQ1. reflexivity.
  - destruct (Hf x s1 Hself) as (Hself2 & (evs2 & Ht2 & HP2 & Hf2) & HQ2).
    split; [exact Hself2 |]. split; [| exact HQ2].
    exists (evs1 ++ evs2)%list. split; [rewrite Ht2, Ht1, app_assoc; reflexivity |].
    split; [apply Forall_app; split; assumption |].
    intros Hfree. apply Forall_app in Hfree. destruct Hfree as [Hfree1 Hfree2].
    rewrite (Hf2 Hfree2). apply Hf1. exact Hfree1.
Qed.

(** [me = self] at the start of a method. *)
Lemma behaves_bind_self {B} (f : PBIManager -> M B) :
  behaves me P Q (f me) -> behaves me P Q (get_self ≫= f).
Proof.
  intros Hf s Hs. rewrite run_bind, run_get_self. cbv beta. rewrite Hs. apply Hf. exact Hs.
Qed.

Lemma behaves_try_reraise {A} (body : M A) (handler : exn -> M unit) :
  behaves me P Q body -> (∀ e, behaves me P Q (handler e)) ->
  behaves me P Q (try_reraise body handler).
Proof.
  intros Hb Hh s Hs. unfold try_reraise.
  destruct (Hb s Hs) as (Hself & (evs1 & Ht1 & HP1 & Hf1) & HQ1).
  destruct (body s) as [[e | x] s1]; cbn [fst snd] in *.
  - destruct (Hh e s1 Hself) as (Hself2 & (evs2 & Ht2 & HP2 & Hf2) & HQ2).
    assert (Hstate : self (snd (match handler e s1 with
                                | (inl e', s'') => (@inl exn A e', s'')
                                | (inr _, s'') => (inl e, s'')
                                end)) = me
                     ∧ snd (match handler e s1 with
                            | (inl e', s'') => (@inl exn A e', s'')
                            | (inr _, s'') => (inl e, s'')
                            end) = snd (handler e s1)).
    { destruct (handler e s1) as [[e' | u] s2]; split; try reflexivity; exact Hself2. }
    destruct Hstate as [Hself3 Hsnd]. split; [exact Hself3 |]. split.
    + rewrite Hsnd. exists (evs1 ++ evs2)%list.
      split; [rewrite Ht2, Ht1, app_assoc; reflexivity |].
      split; [apply Forall_app; split; assumption |].
      intros Hfree. apply Forall_app in Hfree. destruct Hfree as [Hfree1 Hfree2].
      rewrite (Hf2 Hfree2). apply Hf1. exact Hfree1.
    + intros e0 H. destruct (handler e s1) as [[e' | u] s2]; cbn [fst] in *.
      * inversion H; subst. apply HQ2. reflexivity.
      * inversion H; subst. apply HQ1. reflexivity.
  - split; [exact Hself |]. split; [| discriminate].
    exists evs1. repeat split; assumption.
Qed.

Lemma behaves_try_finally {A} (body : M A) (final : M unit) :
  behaves me P Q body -> behaves me P Q final -> behaves me P Q (try_finally body final).
Proof.
  intros Hb Hfin s Hs. unfold try_finally.
  destruct (Hb s Hs) as (Hself & (evs1 & Ht1 & HP1 & Hf1) & HQ1).
  destruct (body s) as [r s1]; cbn [fst snd] in *.
  destruct (Hfin s1 Hself) as (Hself2 & (evs2 & Ht2 & HP2 & Hf2) & HQ2).
  destruct (final s1) as [[e' | u] s2]; cbn [fst snd] in *.
  - split; [exact Hself2 |]. split.
    + exists (evs1 ++ evs2)%list. split; [rewrite Ht2, Ht1, app_assoc; reflexivity |].
      split; [apply Forall_app; split; assumption |].
      intros Hfree. apply Forall_app in Hfree. destruct Hfree as [Hfree1 Hfree2].
      rewrite (Hf2 Hfree2). apply Hf1. exact Hfree1.
    + intros e0 H. inversion H; subst. apply HQ2. reflexivity.
  - split; [exact Hself2 |]. split; [| exact HQ1].
    exists (evs1 ++ evs2)%list. split; [rewrite Ht2, Ht1, app_assoc; reflexivity |].
    split; [apply Forall_app; split; assumption |].
    intros Hfree. apply Forall_app in Hfree. destruct Hfree as [Hfree1 Hfree2].
    rewrite (Hf2 Hfree2). apply Hf1. exact Hfree1.
Qed.

Lemma behaves_for_each {A B} (body : A -> M B) (l : list A) :
  (∀ x, behaves me P Q (body x)) -> behaves me P Q (for_each body l).
Proof.
  intros Hb. induction l as [| x rest IH]; cbn [for_each].
  - apply behaves_ret.
  - apply behaves_bind; [apply Hb |]. intros y.
    apply behaves_bind; [exact IH |]. intros ys. apply behaves_ret.
Qed.

End Behaves.

Lemma shape_error_builtin (e : exn) : QueryResultShapeError e = true -> builtin e = true.
Proof. destruct e; simpl; congruence. Qed.

Lemma http_requests_map (rqs : list Request) : http_requests (map Http rqs) = rqs.
Proof. induction rqs as [| rq rest IH]; simpl; [reflexivity | rewrite IH; reflexivity]. Qed.

Lemma prefix_append (a b : string) : String.prefix a (a +:+ b) = true.
Proof.
  induction a as [| c a IH]; simpl.
  - destruct b; reflexivity.
  - destruct (Ascii.ascii_dec c c) as [_ | Hne]; [exact IH | contradiction].
Qed.

Ltac solve_event :=
  unfold event_ok, secured; cbn [rq_headers rq_method rq_url file_free];
  repeat split;
  try (intros; first [discriminate | reflexivity | repeat constructor]).

Ltac solve_exn :=
  first [ left; reflexivity | right; eexists; eexists; reflexivity ].

Ltac solve_lift :=
  match goal with
  | He : _ = inl ?e |- expected ?e =>
      left;
      first [ eapply py_get_error; exact He
            | eapply py_iter_error; exact He
            | eapply pd_DataFrame_error; exact He
            | apply shape_error_builtin; eapply rows_of_payload_error; exact He ]
  end.

(** Walks down a method that holds a token. *)
Ltac behave lemmas :=
  repeat first
    [ progress cbv zeta
    | lemmas
    | apply behaves_bind_self;
      match goal with
      | H : access_token ?me ≠ JNull |- context [is_none (access_token ?me)] =>
          rewrite (is_none_false _ H)
      end
    | apply behaves_bind; [| intros ?]
    | apply behaves_try_reraise; [| intros ?]
    | apply behaves_try_finally
    | apply behaves_for_each; intros ?
    | match goal with
      | |- behaves _ _ _ (if ?b then _ else _) => destruct b
      end
    | apply behaves_ret
    | apply behaves_throw; solve_exn
    | apply behaves_lift; intros ? ?; solve_lift
    | apply behaves_response_json; solve_exn
    | apply behaves_emit; [solve_event | reflexivity]
    | apply behaves_requests_send; [solve_event | solve_exn]
    | apply behaves_to_excel; intros ?; left; apply library_builtin
    | apply behaves_enter; [solve_event | solve_exn]
    | apply behaves_exit; [intros ?; solve_event | solve_exn] ].

Section Further.

Variable rt : Runtime.

(** [get_list_of_datasets] with a token: one request, then the outcome of
    the answer. *)
Lemma get_list_of_datasets_run (workspace_id : string) (s : State) :
  access_token (self s) ≠ JNull ->
  let rq := datasets_request rt (access_token (self s)) workspace_id in
  get_list_of_datasets rt workspace_id s
  = (listing_outcome rt (remote (world s) (trace (world s)) rq), log (Http rq) s).
Proof.
  intros Htok rq. subst rq. apply is_none_false in Htok.
  unfold get_list_of_datasets. rewrite run_bind, run_get_self. cbv beta. rewrite Htok.
  cbv zeta. rewrite run_bind. unfold requests_get, requests_send, datasets_request.
  unfold listing_outcome.
  destruct (remote (world s) (trace (world s)) _) as [resp |]; [| reflexivity].
  destruct (status_code resp =? 200); [| reflexivity].
  rewrite run_bind. unfold response_json.
  destruct (json_body resp) as [data |]; [| reflexivity].
  rewrite run_ret, run_bind. unfold lift.
  destruct (py_get data "value" (JArr [])); reflexivity.
Qed.

Lemma get_list_of_reports_run (workspace_id : string) (s : State) :
  access_token (self s) ≠ JNull ->
  let rq := reports_request rt (access_token (self s)) workspace_id in
  get_list_of_reports rt workspace_id s
  = (listing_outcome rt (remote (world s) (trace (world s)) rq), log (Http rq) s).
Proof.
  intros Htok rq. subst rq. apply is_none_false in Htok.
  unfold get_list_of_reports. rewrite run_bind, run_get_self. cbv beta. rewrite Htok.
  cbv zeta. rewrite run_bind. unfold requests_get, requests_send, reports_request.
  unfold listing_outcome.
  destruct (remote (world s) (trace (world s)) _) as [resp |]; [| reflexivity].
  destruct (status_code resp =? 200); [| reflexivity].
  rewrite run_bind. unfold response_json.
  destruct (json_body resp) as [data |]; [| reflexivity].
  rewrite run_ret, run_bind. unfold lift.
  destruct (py_get data "value" (JArr [])); reflexivity.
Qed.

(** [refresh_dataset] with a token: one request, and the message when the
    status is 202. *)
Lemma refresh_dataset_run (workspace_id dataset_id : string) (s : State) :
  access_token (self s) ≠ JNull ->
  let rq := refresh_request rt (access_token (self s)) workspace_id dataset_id in
  refresh_dataset rt workspace_id dataset_id s
  = match remote (world s) (trace (world s)) rq with
    | None => (inl RequestException, log (Http rq) s)
    | Some resp =>
        if status_code resp =? 202
        then (inr tt, log (Print (RefreshStarted dataset_id)) (log (Http rq) s))
        else (inl (ApiError (status_code resp) (text resp)), log (Http rq) s)
    end.
Proof.
  intros Htok rq. subst rq. apply is_none_false in Htok.
  unfold refresh_dataset. rewrite run_bind, run_get_self. cbv beta. rewrite Htok.
  cbv zeta. rewrite run_bind. unfold requests_post, requests_send, refresh_request.
  destruct (remote (world s) (trace (world s)) _) as [resp |]; [| reflexivity].
  destruct (status_code resp =? 202); reflexivity.
Qed.

(** X1. With a token, once the reports endpoint has answered: on status
    200 with a JSON object whose [value] is a list of objects,
    [get_list_of_reports] returns the frame pandas builds from these
    objects with the columns [id] and [name]: one row per object, in order,
    whose two cells are those stored for the columns made of the objects'
    [id] and [name] fields, any other field dropped and a missing one
    contributing the missing marker; where pandas keeps the two columns as
    they are, the cells of a row are the [id] and the [name] of its object,
    and the missing value for a field the object lacks.  On any other
    status it raises the exception that carries the status and the body. *)
Theorem list_reports_maps_records (workspace_id : string) (s : State) (resp : Response) :
  access_token (self s) ≠ JNull ->
  remote (world s) (trace (world s))
    (reports_request rt (access_token (self s)) workspace_id) = Some resp ->
  (status_code resp = 200 ->
   ∀ fields items,
     json_body resp = Some (JObj fields) ->
     py_get (JObj fields) "value" (JArr []) = inr (JArr items) ->
     forallb is_dict items = true ->
     ∃ df,
       fst (get_list_of_reports rt workspace_id s) = inr df
       ∧ df_columns df = ["id"; "name"]
       ∧ length (df_rows df) = length items
       ∧ (∀ i, (i < length items)%nat ->
            df_rows df !! i
            = Some [stored rt (map (λ r, raw_entry r "id") items) i;
                    stored rt (map (λ r, raw_entry r "name") items) i])
       ∧ (kept rt (raw_column items "id") -> kept rt (raw_column items "name") ->
          ∀ i r, items !! i = Some r ->
            df_rows df !! i
            = Some [plain (raw_entry r "id"); plain (raw_entry r "name")]))
  ∧ (status_code resp ≠ 200 ->
     fst (get_list_of_reports rt workspace_id s)
     = inl (ApiError (status_code resp) (text resp))).
Proof.
  intros Htok Hresp.
  pose proof (get_list_of_reports_run workspace_id s Htok) as Hrun.
  cbv zeta in Hrun. rewrite Hrun, Hresp. cbn [fst]. unfold listing_outcome.
  split.
  - intros H200 fields items Hbody Hvalue Hdicts.
    rewrite H200, Hbody. change (200 =? 200) with true. cbv iota.
    unfold mbind, result_bind. rewrite Hvalue.
    unfold pd_DataFrame. rewrite Hdicts.
    exists (frame_of_records rt items (Some ["id"; "name"])).
    split; [reflexivity |]. split; [reflexivity |].
    split; [apply frame_of_records_length |].
    split; [intros i Hi; rewrite (frame_of_records_row rt items _ i Hi); reflexivity |].
    intros Hid Hname i r Hi.
    rewrite (frame_of_records_row rt items _ i (lookup_lt_Some _ _ _ Hi)).
    cbn [frame_of_records df_columns map].
    rewrite (stored_kept rt _ i _ Hid (raw_column_lookup items "id" i r Hi)).
    rewrite (stored_kept rt _ i _ Hname (raw_column_lookup items "name" i r Hi)).
    reflexivity.
  - intros Hne. apply Z.eqb_neq in Hne. rewrite Hne. reflexivity.
Qed.

(** X2. The edges of the two listings, with a token.  When the transport
    fails the method raises its exception; on status 200, a body that is
    not JSON raises the decoding exception, a JSON value that is not an
    object raises [AttributeError], and an object without [value], or with
    a [value] of [None], gives a frame with the two columns and no row. *)
Theorem listings_at_the_edges (workspace_id : string) (s : State) :
  access_token (self s) ≠ JNull ->
  ∀ (reports : bool),
    let rq := if reports
              then reports_request rt (access_token (self s)) workspace_id
              else datasets_request rt (access_token (self s)) workspace_id in
    let result := if reports
                  then fst (get_list_of_reports rt workspace_id s)
                  else fst (get_list_of_datasets rt workspace_id s) in
    let answer := remote (world s) (trace (world s)) rq in
    (answer = None -> result = inl RequestException)
    ∧ (∀ resp, answer = Some resp -> status_code resp = 200 ->
         (json_body resp = None -> result = inl JSONDecodeError)
         ∧ (∀ data, json_body resp = Some data -> is_dict data = false ->
              result = inl AttributeError)
         ∧ (∀ fields, json_body resp = Some (JObj fields) ->
              assoc "value" fields = None ∨ assoc "value" fields = Some JNull ->
              result = inr {| df_columns := ["id"; "name"]; df_rows := [] |})).
Proof.
  intros Htok reports rq result answer.
  assert (Hresult : result = listing_outcome rt answer).
  { subst result answer rq. destruct reports.
    - pose proof (get_list_of_reports_run workspace_id s Htok) as Hrun.
      cbv zeta in Hrun. rewrite Hrun. reflexivity.
    - pose proof (get_list_of_datasets_run workspace_id s Htok) as Hrun.
      cbv zeta in Hrun. rewrite Hrun. reflexivity. }
  rewrite Hresult. clearbody answer. clear Hresult.
  split.
  - intros ->. reflexivity.
  - intros resp -> H200. unfold listing_outcome. rewrite H200.
    change (200 =? 200) with true. cbv iota.
    split; [intros ->; reflexivity |]. split.
    + intros data -> Hdict. destruct data; try reflexivity. discriminate Hdict.
    + intros fields -> [Hvalue | Hvalue]; unfold mbind, result_bind, py_get;
        rewrite Hvalue; reflexivity.
Qed.

(** X3. With a token, each of the four operations that make one call
    sends exactly its request, once, whatever the answer: status, body or
    a failure of the transport. *)
Theorem one_request_per_call (op : operation) (s : State) (rq : Request) :
  access_token (self s) ≠ JNull ->
  single_request rt (access_token (self s)) op = Some rq ->
  http_requests (trace (world (snd (call rt op s))))
  = (http_requests (trace (world s)) ++ [rq])%list.
Proof.
  intros Htok Hrq.
  destruct op; try discriminate Hrq; cbn [single_request] in Hrq;
    injection Hrq as <-; unfold call; rewrite run_bind.
  - pose proof (get_list_of_datasets_run workspace_id s Htok) as Hrun.
    cbv zeta in Hrun. rewrite Hrun.
    destruct (listing_outcome _ _); cbn [snd]; apply http_requests_snoc.
  - pose proof (get_list_of_reports_run workspace_id s Htok) as Hrun.
    cbv zeta in Hrun. rewrite Hrun.
    destruct (listing_outcome _ _); cbn [snd]; apply http_requests_snoc.
  - pose proof (execute_query_run rt query_input dataset_id s Htok) as Hrun.
    cbv zeta in Hrun. rewrite Hrun.
    assert (Hev : http_requests
                    (trace (world s) ++
                     query_events rt
                       (query_request rt (access_token (self s)) query_input dataset_id)
                       (remote (world s) (trace (world s))
                          (query_request rt (access_token (self s)) query_input dataset_id)))
                  = (http_requests (trace (world s))
                     ++ [query_request rt (access_token (self s)) query_input dataset_id])%list).
    { rewrite http_requests_app. f_equal. unfold query_events.
      destruct (remote _ _ _) as [resp |]; [| reflexivity].
      destruct (status_code resp =? 200); [| reflexivity].
      destruct (json_body resp); [| reflexivity].
      destruct (_ ≫= _); reflexivity. }
    destruct (query_outcome _ _); cbn [snd]; exact Hev.
  - pose proof (refresh_dataset_run workspace_id dataset_id s Htok) as Hrun.
    cbv zeta in Hrun. rewrite Hrun.
    destruct (remote _ _ _) as [resp |]; [| cbn [snd]; apply http_requests_snoc].
    destruct (status_code resp =? 202); rewrite ?run_ret; cbn [snd];
      [| apply http_requests_snoc].
    unfold log. cbn [trace world with_world with_trace].
    rewrite http_requests_print. apply http_requests_snoc.
Qed.

(** X4. With a token, [execute_query] adds its request to the trace and
    prints an exception, before raising it again, exactly when the
    exception comes out of the [try] block.  A failure of the transport, a
    bad status and a body that is not JSON are raised without a message;
    on status 200 with a JSON payload, what reading the rows and building
    the frame give is what the method returns or raises, and an exception
    there is printed first. *)
Theorem execute_query_prints_shape_errors (query_input dataset_id : string) (s : State) :
  access_token (self s) ≠ JNull ->
  let rq := query_request rt (access_token (self s)) query_input dataset_id in
  let answer := remote (world s) (trace (world s)) rq in
  let r := execute_query rt query_input dataset_id s in
  (answer = None ->
     fst r = inl RequestException
     ∧ trace (world (snd r)) = (trace (world s) ++ [Http rq])%list)
  ∧ (∀ resp, answer = Some resp ->
       (status_code resp ≠ 200 ->
          fst r = inl (ApiError (status_code resp) (text resp))
          ∧ trace (world (snd r)) = (trace (world s) ++ [Http rq])%list)
       ∧ (status_code resp = 200 ->
          (json_body resp = None ->
             fst r = inl JSONDecodeError
             ∧ trace (world (snd r)) = (trace (world s) ++ [Http rq])%list)
          ∧ (∀ payload, json_body resp = Some payload ->
               fst r = (rows ← rows_of_payload payload; pd_DataFrame rt rows None)
               ∧ trace (world (snd r))
                 = (trace (world s) ++
                    Http rq ::
                    match fst r with
                    | inl e => [Print (ErrorCaught e)]
                    | inr _ => []
                    end)%list))).
Proof.
  intros Htok rq answer r. subst r.
  pose proof (execute_query_run rt query_input dataset_id s Htok) as Hrun.
  cbv zeta in Hrun. fold rq in Hrun. fold answer in Hrun. rewrite Hrun. cbn [fst snd].
  unfold add_events. cbn [trace world with_world with_trace].
  clearbody answer. unfold query_events, query_outcome.
  split.
  - intros ->. split; reflexivity.
  - intros resp ->. split.
    + intros Hne. apply Z.eqb_neq in Hne. rewrite Hne. split; reflexivity.
    + intros H200. rewrite H200. change (200 =? 200) with true. cbv iota. split.
      * intros ->. split; reflexivity.
      * intros payload ->. split; [reflexivity |].
        destruct (_ ≫= _); reflexivity.
Qed.

(** X5. [result_json['results'][0]['tables'][0]['rows']] evaluates to
    [rows] exactly when the payload is an object whose [results] is a
    list that starts with an object whose [tables] is a list that starts
    with an object whose [rows] is [rows]: further results, further tables
    and other keys are not looked at. *)
Theorem rows_of_payload_shape (payload rows : json) :
  rows_of_payload payload = inr rows
  <-> ∃ fields result more_results table more_tables,
        payload = JObj fields
        ∧ assoc "results" fields = Some (JArr (JObj result :: more_results))
        ∧ assoc "tables" result = Some (JArr (JObj table :: more_tables))
        ∧ assoc "rows" table = Some rows.
Proof.
  split.
  - unfold rows_of_payload, mbind, result_bind. intros H.
    destruct payload as [| | | | | | fields]; simpl in H; try discriminate H.
    destruct (assoc "results" fields) as [results |] eqn:Hresults; [| discriminate H].
    destruct results as [| | | | c | [| first more_results] |]; simpl in H;
      try discriminate H.
    { destruct (seq_index (str_chars c) 0); simpl in H; discriminate H. }
    destruct first as [| | | | c | | result]; simpl in H; try discriminate H.
    destruct (assoc "tables" result) as [tables |] eqn:Htables; [| discriminate H].
    destruct tables as [| | | | c | [| first more_tables] |]; simpl in H;
      try discriminate H.
    { destruct (seq_index (str_chars c) 0); simpl in H; discriminate H. }
    destruct first as [| | | | c | | table]; simpl in H; try discriminate H.
    destruct (assoc "rows" table) as [found |] eqn:Hrows; [| discriminate H].
    injection H as <-.
    exists fields, result, more_results, table, more_tables. repeat split; assumption.
  - intros (fields & result & more_results & table & more_tables & -> & Hr & Ht & Hrows).
    unfold rows_of_payload, mbind, result_bind. simpl. rewrite Hr. simpl.
    rewrite Ht. simpl. rewrite Hrows. reflexivity.
Qed.

(** X6. With a token, when the output file cannot be opened
    [get_documentation] raises [OSError] at once: no query is sent, no
    file is written, the state is as before. *)
Theorem export_documentation_unwritable (dataset_id path_to_save : string) (s : State) :
  access_token (self s) ≠ JNull ->
  writable (world s) (doc_path dataset_id path_to_save) = false ->
  get_documentation rt dataset_id path_to_save s = (inl OSError, s).
Proof.
  intros Htok Hclosed.
  unfold get_documentation. rewrite run_bind, run_get_self. cbv beta.
  rewrite (is_none_false _ Htok). cbv zeta.
  fold (doc_path dataset_id path_to_save).
  rewrite run_bind. unfold ExcelWriter_enter. rewrite Hclosed. reflexivity.
Qed.

(** [get_token] when the identity provider answers with a truthy token. *)
Lemma get_token_run_ok (s : State) (d : list (string * json)) :
  identity (world s) (trace (world s)) (token_request (self s)) = Some d ->
  py_truthy (response_token d) = true ->
  get_token s
  = (inr tt,
     with_access_token (response_token d) (log (AcquireToken (token_request (self s))) s)).
Proof.
  intros Hidp Htruthy.
  unfold get_token. rewrite run_bind, run_get_self. cbv beta.
  rewrite run_bind. unfold acquire_token_for_client.
  unfold token_request in Hidp. rewrite Hidp.
  rewrite run_bind. unfold set_access_token. rewrite run_bind, run_get_self. cbv beta.
  fold (response_token d).
  cbn [access_token self with_access_token]. rewrite Htruthy. reflexivity.
Qed.

(** X7. [get_token] on a fresh instance asks the identity provider with
    the client id, the secret, the authority of the tenant and the scope
    as a one-element list; when the answer carries a truthy
    [access_token] the method returns, the token of the instance is that
    value and not [None], and nothing else of the instance changes. *)
Theorem get_token_after_init (tenant client secret sc : string) (s0 : State)
    (d : list (string * json)) :
  let s := snd (__init__ tenant client secret sc s0) in
  let rq := {| tr_client_id := client;
               tr_authority := "https://login.microsoftonline.com/" +:+ tenant;
               tr_client_credential := secret;
               tr_scopes := [sc] |} in
  identity (world s0) (trace (world s0)) rq = Some d ->
  py_truthy (response_token d) = true ->
  fst (get_token s) = inr tt
  ∧ access_token (self (snd (get_token s))) = response_token d
  ∧ access_token (self (snd (get_token s))) ≠ JNull
  ∧ same_credentials (self (snd (get_token s))) (self s)
  ∧ trace (world (snd (get_token s))) = (trace (world s0) ++ [AcquireToken rq])%list
  ∧ files (world (snd (get_token s))) = files (world s0).
Proof.
  intros s rq Hidp Htruthy.
  assert (Hrun : get_token s
                 = (inr tt, with_access_token (response_token d) (log (AcquireToken rq) s))).
  { apply (get_token_run_ok s d); [exact Hidp | exact Htruthy]. }
  rewrite Hrun. cbn [fst snd].
  split; [reflexivity |]. split; [reflexivity |]. split.
  { cbn [access_token self with_access_token]. intros Hnone.
    rewrite Hnone in Htruthy. discriminate Htruthy. }
  split; [repeat split |]. split; reflexivity.
Qed.

(** X8. When the call to the identity provider itself raises,
    [get_token] raises that exception before assigning anything: the
    instance, a token acquired earlier included, is as before. *)
Theorem get_token_transport_failure (s : State) :
  identity (world s) (trace (world s)) (token_request (self s)) = None ->
  fst (get_token s) = inl MsalError
  ∧ self (snd (get_token s)) = self s
  ∧ files (world (snd (get_token s))) = files (world s).
Proof.
  intros Hidp.
  unfold get_token. rewrite run_bind, run_get_self. cbv beta.
  rewrite run_bind. unfold acquire_token_for_client.
  unfold token_request in Hidp. rewrite Hidp.
  repeat split.
Qed.

Lemma behaves_execute_query (export : bool) (me : PBIManager)
    (query_input dataset_id : string) :
  access_token me ≠ JNull ->
  behaves me (event_ok rt export (access_token me)) expected
    (execute_query rt query_input dataset_id).
Proof. intros Htok. unfold execute_query. behave fail. Qed.

Lemma behaves_call (op : operation) (me : PBIManager) :
  authenticated op = true ->
  access_token me ≠ JNull ->
  behaves me (event_ok rt (is_export op) (access_token me)) expected (call rt op).
Proof.
  intros Hop Htok. destruct op; try discriminate Hop; unfold call; cbn [is_export].
  - unfold get_list_of_datasets. behave fail.
  - unfold get_list_of_reports. behave fail.
  - unfold get_reports_with_datasets, report_entry. behave fail.
  - behave ltac:(apply behaves_execute_query; assumption).
  - unfold get_documentation.
    behave ltac:(apply behaves_execute_query; assumption).
  - unfold refresh_dataset. behave fail.
Qed.

Lemma token_or_none (v : json) : v = JNull ∨ v ≠ JNull.
Proof. destruct v; (left; reflexivity) || (right; discriminate). Qed.

(** X9. Every event an authenticated operation adds to the trace is
    secured by the token the instance holds at the call: each request goes
    to the API root with the bearer header of that token, a POST also with
    the JSON content type, and the identity provider is never called, so a
    token is never renewed behind the caller. *)
Theorem requests_carry_the_token (op : operation) (s : State) :
  authenticated op = true ->
  ∃ evs,
    trace (world (snd (call rt op s))) = (trace (world s) ++ evs)%list
    ∧ Forall (secured rt (access_token (self s))) evs.
Proof.
  intros Hop. destruct (token_or_none (access_token (self s))) as [Hnone | Htok].
  - rewrite (call_without_token rt op s Hop Hnone). exists [].
    cbn [snd]. rewrite app_nil_r. split; [reflexivity | constructor].
  - destruct (behaves_call op (self s) Hop Htok s eq_refl)
      as (_ & (evs & Htrace & Hevs & _) & _).
    exists evs. split; [exact Htrace |].
    eapply Forall_impl; [exact Hevs |]. intros ev [Hsec _]. exact Hsec.
Qed.

(** X10. An authenticated operation raises the no-token exception exactly
    when the token of the instance is [None]; with a token, what it raises
    is the exception of a status check or a built-in exception. *)
Theorem no_token_exception_iff (op : operation) (s : State) :
  authenticated op = true ->
  (fst (call rt op s) = inl NotAuthenticatedError <-> access_token (self s) = JNull)
  ∧ (access_token (self s) ≠ JNull -> ∀ e, fst (call rt op s) = inl e -> expected e).
Proof.
  intros Hop. split.
  - split.
    + intros Hraised. destruct (token_or_none (access_token (self s))) as [Hnone | Htok];
        [exact Hnone | exfalso].
      destruct (behaves_call op (self s) Hop Htok s eq_refl) as (_ & _ & Hexn).
      destruct (Hexn _ Hraised) as [Hb | (status & body & Heq)].
      * discriminate Hb.
      * symmetry in Heq. exact (ApiError_not_NotAuthenticated _ _ Heq).
    + intros Hnone. rewrite (call_without_token rt op s Hop Hnone). reflexivity.
  - intros Htok e He.
    destruct (behaves_call op (self s) Hop Htok s eq_refl) as (_ & _ & Hexn).
    apply Hexn. exact He.
Qed.

(** X11. Only the export writes files.  Every other operation, [get_token]
    included, leaves all files as they were, whatever it returns or raises;
    the export leaves every file but its output file as it was. *)
Theorem only_the_export_writes_files (op : operation) (s : State) :
  (is_export op = false -> files (world (snd (call rt op s))) = files (world s))
  ∧ (∀ dataset_id path_to_save path,
       op = ExportDocumentation dataset_id path_to_save ->
       path ≠ doc_path dataset_id path_to_save ->
       files (world (snd (call rt op s))) !! path = files (world s) !! path).
Proof.
  split.
  - intros Hexport.
    assert (Hcases : op = FetchToken ∨ authenticated op = true)
      by (destruct op; [left; reflexivity | right; reflexivity ..]).
    destruct Hcases as [-> | Hop].
    + unfold call. rewrite run_bind.
      unfold get_token. rewrite run_bind, run_get_self. cbv beta.
      rewrite run_bind. unfold acquire_token_for_client.
      destruct (identity (world s) (trace (world s)) _) as [d |]; [| reflexivity].
      rewrite run_bind. unfold set_access_token. rewrite run_bind, run_get_self. cbv beta.
      destruct (negb _); reflexivity.
    + destruct (token_or_none (access_token (self s))) as [Hnone | Htok].
      * rewrite (call_without_token rt op s Hop Hnone). reflexivity.
      * destruct (behaves_call op (self s) Hop Htok s eq_refl)
          as (_ & (evs & _ & Hevs & Hfiles) & _).
        apply Hfiles. eapply Forall_impl; [exact Hevs |].
        intros ev [_ Hfree]. apply Hfree. exact Hexport.
  - intros dataset_id path_to_save path -> Hpath.
    destruct (token_or_none (access_token (self s))) as [Hnone | Htok].
    + rewrite (call_without_token rt (ExportDocumentation dataset_id path_to_save) s
                 eq_refl Hnone).
      reflexivity.
    + unfold call. rewrite run_bind.
      destruct (writable (world s) (doc_path dataset_id path_to_save)) eqn:Hopen.
      * pose proof (get_documentation_run rt dataset_id path_to_save s Htok Hopen) as Hrun.
        cbv zeta in Hrun.
        destruct (export_loop rt (remote (world s)) (access_token (self s)) dataset_id
                    (trace (world s) ++ [OpenFile (doc_path dataset_id path_to_save)])
                    doc_var_list []) as [[r b] evs].
        rewrite Hrun.
        destruct b as [| sheet sheets]; destruct r as [e |];
          cbn [snd files world with_writers with_world with_files with_trace];
          apply lookup_insert_ne; congruence.
      * assert (Hrun : get_documentation rt dataset_id path_to_save s = (inl OSError, s)).
        { unfold get_documentation. rewrite run_bind, run_get_self. cbv beta.
          rewrite (is_none_false _ Htok). cbv zeta.
          fold (doc_path dataset_id path_to_save).
          rewrite run_bind. unfold ExcelWriter_enter. rewrite Hopen. reflexivity. }
        rewrite Hrun. reflexivity.
Qed.

(** The loop over reports that are dicts, against a service that answers
    every detail request: one request per report that carries a dataset
    id, in the order of the reports. *)
Lemma reports_loop_requests (workspace_id : string) (tok : json) (reports : list json) :
  ∀ s,
    forallb is_dict reports = true ->
    (∀ t dataset_id, ∃ resp,
        remote (world s) t (dataset_detail_request rt tok workspace_id dataset_id) = Some resp
        ∧ (status_code resp = 200 -> ∃ fields, json_body resp = Some (JObj fields))) ->
    ∃ names,
      for_each (report_entry rt workspace_id [bearer rt tok]) reports s
      = (inr (zip_with entry reports names),
         add_events (map Http (detail_requests rt tok workspace_id reports)) s).
Proof.
  induction reports as [| report rest IH]; intros s Hdicts Hsvc.
  - exists []. cbn [for_each]. rewrite run_ret. f_equal.
    unfold detail_requests, add_events. cbn [filter list_filter map].
    rewrite app_nil_r. destruct s as [me ws [? ? ? ? ?]]. reflexivity.
  - cbn [forallb] in Hdicts. apply andb_prop in Hdicts. destruct Hdicts as [Hdict Hrest].
    cbn [for_each]. rewrite run_bind, (report_entry_run rt _ _ _ _ Hdict). cbv zeta.
    unfold detail_requests.
    destruct (py_truthy (field report "datasetId")) eqn:Htruthy.
    + rewrite filter_cons_True by exact Htruthy.
      cbn [map].
      destruct (Hsvc (trace (world s)) (field report "datasetId")) as [resp [Hresp Hbody]].
      rewrite Hresp.
      set (rq := dataset_detail_request rt tok workspace_id (field report "datasetId")).
      assert (Hname : ∃ name, detail_outcome (Some resp) = inr name).
      { unfold detail_outcome. destruct (Z.eqb_spec (status_code resp) 200) as [H200 | _].
        - destruct (Hbody H200) as [fields ->]. eexists. reflexivity.
        - eexists. reflexivity. }
      destruct Hname as [name ->].
      destruct (IH (log (Http rq) s) Hrest Hsvc) as [names Hloop].
      exists (name :: names).
      rewrite run_bind, Hloop, run_ret. f_equal.
      fold (detail_requests rt tok workspace_id rest).
      unfold add_events, log. cbn. rewrite <- app_assoc. reflexivity.
    + rewrite filter_cons_False
        by (unfold has_dataset; rewrite Htruthy; discriminate).
      destruct (IH s Hrest Hsvc) as [names Hloop].
      exists (JNull :: names).
      rewrite run_bind, Hloop, run_ret. reflexivity.
Qed.

(** X13. With a token, a reports call answered by 200 with a list of
    objects, and detail requests that are all answered,
    [get_reports_with_datasets] sends the reports request and then one
    detail request for each report whose dataset id is truthy, in the order
    of the reports, and none for the others. *)
Theorem reports_round_trips (workspace_id : string) (s : State) (resp : Response)
    (fields : list (string * json)) (reports : list json) :
  access_token (self s) ≠ JNull ->
  remote (world s) (trace (world s))
    (reports_request rt (access_token (self s)) workspace_id) = Some resp ->
  status_code resp = 200 ->
  json_body resp = Some (JObj fields) ->
  py_get (JObj fields) "value" (JArr []) = inr (JArr reports) ->
  forallb is_dict reports = true ->
  (∀ t dataset_id, ∃ r,
     remote (world s) t
       (dataset_detail_request rt (access_token (self s)) workspace_id dataset_id) = Some r
     ∧ (status_code r = 200 -> ∃ fs, json_body r = Some (JObj fs))) ->
  http_requests (trace (world (snd (get_reports_with_datasets rt workspace_id s))))
  = (http_requests (trace (world s))
     ++ reports_request rt (access_token (self s)) workspace_id
        :: detail_requests rt (access_token (self s)) workspace_id reports)%list.
Proof.
  intros Htok Hresp H200 Hbody Hvalue Hdicts Hsvc.
  unfold get_reports_with_datasets. rewrite run_bind, run_get_self. cbv beta.
  rewrite (is_none_false _ Htok). cbv zeta.
  rewrite run_bind. unfold requests_get.
  pose proof Hresp as Hresp'. unfold reports_request in Hresp'.
  rewrite (run_requests_send _ _ resp Hresp').
  rewrite H200. change (200 =? 200) with true. cbv iota.
  rewrite run_bind. unfold response_json. rewrite Hbody, run_ret.
  rewrite run_bind. unfold lift at 1. rewrite Hvalue.
  rewrite run_bind. unfold lift at 1. cbn [py_iter].
  rewrite run_bind.
  match goal with
  | |- context [for_each _ reports ?s1] =>
      destruct (reports_loop_requests workspace_id (access_token (self s)) reports s1
                  Hdicts Hsvc) as [names Hloop]
  end.
  rewrite Hloop. unfold lift. cbn [snd].
  unfold add_events, log. cbn [trace world with_world with_trace].
  rewrite !http_requests_app, http_requests_map, <- app_assoc. reflexivity.
Qed.

(** X14. The loop forgives a detail answer with a bad status and nothing
    else.  With a token and a reports call answered by 200 with a list
    whose first report is an object with a truthy dataset id:
    [get_reports_with_datasets] raises the transport exception when the
    detail request fails, the decoding exception when the detail answer is
    200 with a body that is not JSON, and [AttributeError] when it is 200
    with JSON that is not an object. *)
Theorem detail_failures_propagate (workspace_id : string) (s : State) (resp : Response)
    (fields : list (string * json)) (report : json) (rest : list json) :
  access_token (self s) ≠ JNull ->
  remote (world s) (trace (world s))
    (reports_request rt (access_token (self s)) workspace_id) = Some resp ->
  status_code resp = 200 ->
  json_body resp = Some (JObj fields) ->
  py_get (JObj fields) "value" (JArr []) = inr (JArr (report :: rest)) ->
  is_dict report = true ->
  has_dataset report = true ->
  let answer :=
    remote (world s)
      (trace (world s) ++ [Http (reports_request rt (access_token (self s)) workspace_id)])
      (dataset_detail_request rt (access_token (self s)) workspace_id
         (field report "datasetId")) in
  let result := fst (get_reports_with_datasets rt workspace_id s) in
  (answer = None -> result = inl RequestException)
  ∧ (∀ r, answer = Some r -> status_code r = 200 ->
       (json_body r = None -> result = inl JSONDecodeError)
       ∧ (∀ data, json_body r = Some data -> is_dict data = false ->
            result = inl AttributeError)).
Proof.
  intros Htok Hresp H200 Hbody Hvalue Hdict Hhas answer result.
  assert (Hresult : result
                    = match detail_outcome answer with
                      | inl e => inl e
                      | inr name =>
                          fst ((ys ← for_each
                                  (report_entry rt workspace_id
                                     [bearer rt (access_token (self s))]) rest;
                                report_list ← mret (entry report name :: ys);
                                lift (pd_DataFrame rt (JArr report_list)
                                        (Some ["report_id"; "report_name"; "dataset_id";
                                               "dataset_name"])))
                                 (log (Http (dataset_detail_request rt (access_token (self s))
                                               workspace_id (field report "datasetId")))
                                    (log (Http (reports_request rt (access_token (self s))
                                                  workspace_id)) s)))
                      end).
  { subst result answer.
    unfold get_reports_with_datasets. rewrite run_bind, run_get_self. cbv beta.
    rewrite (is_none_false _ Htok). cbv zeta.
    rewrite run_bind. unfold requests_get.
    pose proof Hresp as Hresp'. unfold reports_request in Hresp'.
    rewrite (run_requests_send _ _ resp Hresp').
    rewrite H200. change (200 =? 200) with true. cbv iota.
    rewrite run_bind. unfold response_json. rewrite Hbody, run_ret.
    rewrite run_bind. unfold lift at 1. rewrite Hvalue.
    rewrite run_bind. unfold lift at 1. cbn [py_iter].
    rewrite run_bind. cbn [for_each]. rewrite run_bind.
    rewrite (report_entry_run rt _ _ _ _ Hdict). cbv zeta.
    unfold has_dataset in Hhas. rewrite Hhas.
    fold (reports_request rt (access_token (self s)) workspace_id).
    change (trace (world (log (Http (reports_request rt (access_token (self s))
                                       workspace_id)) s)))
      with (trace (world s)
            ++ [Http (reports_request rt (access_token (self s)) workspace_id)])%list.
    change (remote (world (log (Http (reports_request rt (access_token (self s))
                                        workspace_id)) s)))
      with (remote (world s)).
    destruct (detail_outcome _) as [e | name]; [reflexivity |].
    rewrite !run_bind.
    destruct (for_each _ rest _) as [[e | ys] s2]; reflexivity. }
  rewrite Hresult. clearbody answer. clear Hresult.
  split.
  - intros ->. reflexivity.
  - intros r -> Hr200. unfold detail_outcome. rewrite Hr200.
    change (200 =? 200) with true. cbv iota.
    split; [intros ->; reflexivity |].
    intros data -> Hdata. destruct data; try reflexivity. discriminate Hdata.
Qed.

Lemma http_requests_query_events (rq : Request) (answer : option Response) :
  http_requests (query_events rt rq answer) = [rq].
Proof.
  unfold query_events.
  destruct answer as [resp |]; [| reflexivity].
  destruct (status_code resp =? 200); [| reflexivity].
  destruct (json_body resp); [| reflexivity].
  destruct (_ ≫= _); reflexivity.
Qed.

(** The loop sends the requests of the words that went through and of
    the first word that did not, and no other. *)
Lemma http_requests_export_loop (service : list event -> Request -> option Response)
    (tok : json) (dataset_id : string) (words : list string) :
  ∀ (t : list event) (book : Workbook),
    http_requests (snd (export_loop rt service tok dataset_id t words book))
    = take (S (steps_passed rt words
                 (map (query_outcome rt)
                    (answers service t (doc_requests rt tok dataset_id words)))))
        (doc_requests rt tok dataset_id words).
Proof.
  induction words as [| word rest IH]; intros t book.
  - reflexivity.
  - cbn [doc_requests map answers export_loop steps_passed].
    set (rq := query_request rt tok (query_word word) dataset_id).
    destruct (query_outcome rt (service t rq)) as [e | df].
    + cbn [snd]. rewrite http_requests_query_events. reflexivity.
    + destruct (excel_write rt word df) as [[e [partial |]] |]; [reflexivity | reflexivity |].
      specialize (IH (t ++ [Http rq])%list (book ++ [(word, df)])%list).
      fold (doc_requests rt tok dataset_id rest).
      destruct (export_loop rt service tok dataset_id (t ++ [Http rq]) rest
                  (book ++ [(word, df)])) as [[r b] evs].
      cbn [snd] in *.
      change (http_requests (Http rq :: evs)) with (rq :: http_requests evs).
      rewrite IH. reflexivity.
Qed.

(** X15. With a token and an output file that can be opened, the export
    sends the requests of its four queries in order and stops at the first
    word whose query or whose write raises: the requests it adds are those
    of the words that went through, followed by the one of the word that
    did not if there is one. *)
Theorem export_stops_at_first_failure (dataset_id path_to_save : string) (s : State) :
  access_token (self s) ≠ JNull ->
  writable (world s) (doc_path dataset_id path_to_save) = true ->
  let outs := doc_outcomes rt s dataset_id path_to_save in
  http_requests (trace (world (snd (get_documentation rt dataset_id path_to_save s))))
  = (http_requests (trace (world s))
     ++ take (S (steps_passed rt doc_var_list outs))
          (doc_requests rt (access_token (self s)) dataset_id doc_var_list))%list.
Proof.
  intros Htok Hopen outs.
  pose proof (get_documentation_run rt dataset_id path_to_save s Htok Hopen) as Hrun.
  cbv zeta in Hrun.
  pose proof (http_requests_export_loop (remote (world s)) (access_token (self s)) dataset_id
                doc_var_list (trace (world s) ++ [OpenFile (doc_path dataset_id path_to_save)])
                []) as Hq.
  fold (doc_outcomes rt s dataset_id path_to_save) in Hq. fold outs in Hq.
  destruct (export_loop rt (remote (world s)) (access_token (self s)) dataset_id
              (trace (world s) ++ [OpenFile (doc_path dataset_id path_to_save)])
              doc_var_list []) as [[r b] evs].
  cbn [snd] in Hq. rewrite Hrun.
  cbn [snd trace world with_writers with_world with_files with_trace].
  rewrite !http_requests_app, Hq.
  destruct b as [| sheet sheets]; destruct r as [e |];
    cbn [http_requests omap app]; rewrite ?app_nil_r; reflexivity.
Qed.

(** X16. A token that [get_token] has just stored is the one the next
    operation uses: after a [get_token] that returned, an authenticated
    operation does not raise the no-token exception, and every request it
    sends carries the bearer header of the token of the answer, whatever
    token the instance held before. *)
Theorem fetched_token_is_used (s : State) (d : list (string * json)) (op : operation) :
  identity (world s) (trace (world s)) (token_request (self s)) = Some d ->
  py_truthy (response_token d) = true ->
  authenticated op = true ->
  let s1 := snd (get_token s) in
  fst (call rt op s1) ≠ inl NotAuthenticatedError
  ∧ ∃ evs,
      trace (world (snd (call rt op s1)))
      = (trace (world s) ++ AcquireToken (token_request (self s)) :: evs)%list
      ∧ Forall (secured rt (response_token d)) evs.
Proof.
  intros Hidp Htruthy Hop s1. subst s1.
  rewrite (get_token_run_ok s d Hidp Htruthy). cbn [snd].
  set (s1 := with_access_token _ _).
  assert (Htok : access_token (self s1) ≠ JNull).
  { unfold s1. cbn [access_token self with_access_token]. intros Hnone.
    rewrite Hnone in Htruthy. discriminate Htruthy. }
  destruct (behaves_call op (self s1) Hop Htok s1 eq_refl)
    as (_ & (evs & Htrace & Hevs & _) & Hexn).
  split.
  - intros Hraised. destruct (Hexn _ Hraised) as [Hb | (status & body & Heq)].
    + discriminate Hb.
    + symmetry in Heq. exact (ApiError_not_NotAuthenticated _ _ Heq).
  - exists evs. split.
    + rewrite Htrace. unfold s1, log.
      cbn [trace world with_access_token with_world with_trace].
      rewrite <- app_assoc. reflexivity.
    + eapply Forall_impl; [exact Hevs |]. intros ev [Hsec _]. exact Hsec.
Qed.

End Further.

(** * The properties on the mocks *)

(** ** The cases of the specification *)

Example datasets_one_record :
  fst (get_list_of_datasets mock_runtime "w" (mock_state (JStr "tok") datasets_service no_provider))
  = inr {| df_columns := ["id"; "name"]; df_rows := [[Cell (JStr "d1"); Cell (JStr "Sales")]] |}.
Proof. vm_compute. reflexivity. Qed.

Example query_one_row :
  fst (execute_query mock_runtime "EVALUATE t" "d"
         (mock_state (JStr "tok") query_service no_provider))
  = inr one_row.
Proof. vm_compute. reflexivity. Qed.

Example query_missing_tables :
  fst (execute_query mock_runtime "EVALUATE t" "d"
         (mock_state (JStr "tok")
            (λ _, respond 200 "" (Some (JObj [("results", JArr [JObj []])]))) no_provider))
  = inl (KeyError (JStr "tables")).
Proof. vm_compute. reflexivity. Qed.

Example refresh_400 :
  fst (refresh_dataset mock_runtime "w" "d"
         (mock_state (JStr "tok") (λ _, respond 400 "bad" None) no_provider))
  = inl (ApiError 400 "bad").
Proof. vm_compute. reflexivity. Qed.

Example report_name_resolved :
  fst (get_reports_with_datasets mock_runtime "w"
         (mock_state (JStr "tok")
            (λ rq, if String.eqb (rq_url rq) "https://api.powerbi.com/v1.0/myorg/groups/w/reports"
                   then respond 200 "" (Some reports_payload)
                   else respond 200 "" (Some (JObj [("name", JStr "Sales")])))
            no_provider))
  = inr {| df_columns := ["report_id"; "report_name"; "dataset_id"; "dataset_name"];
           df_rows := [[Cell (JStr "r1"); Cell (JStr "Sales report"); Cell (JStr "d1");
                        Cell (JStr "Sales")]] |}.
Proof. vm_compute. reflexivity. Qed.

Example report_name_degraded :
  fst (get_reports_with_datasets mock_runtime "w"
         (mock_state (JStr "tok") reports_service no_provider))
  = inr {| df_columns := ["report_id"; "report_name"; "dataset_id"; "dataset_name"];
           df_rows := [[Cell (JStr "r1"); Cell (JStr "Sales report"); Cell (JStr "d1");
                        Cell JNull]] |}.
Proof. vm_compute. reflexivity. Qed.

Example third_query_fails :
  let r := get_documentation mock_runtime "d" "out"
             (mock_state (JStr "tok") failing_service no_provider) in
  fst r = inl (ApiError 500 "boom")
  ∧ files (world (snd r)) !! "out/Documentation_d.xlsx"
    = Some [("columns", one_row); ("tables", one_row)].
Proof. vm_compute. split; reflexivity. Qed.

Example first_query_fails :
  let r := get_documentation mock_runtime "d" "out"
             (mock_state (JStr "tok") refusing_service no_provider) in
  fst r = inl IndexError
  ∧ files (world (snd r)) !! "out/Documentation_d.xlsx" = Some []
  ∧ trace (world (snd r))
    = [OpenFile "out/Documentation_d.xlsx";
       Http (query_request mock_runtime (JStr "tok") (query_word "columns") "d")].
Proof. vm_compute. repeat split; reflexivity. Qed.

Example first_write_refused :
  let r := get_documentation refusing_writer "d" "out"
             (mock_state (JStr "tok") query_service no_provider) in
  fst r = inl (LibraryError "IllegalCharacterError")
  ∧ http_requests (trace (world (snd r)))
    = [query_request refusing_writer (JStr "tok") (query_word "columns") "d"]
  ∧ files (world (snd r)) !! "out/Documentation_d.xlsx"
    = Some [("columns", {| df_columns := ["a"]; df_rows := [] |})].
Proof. vm_compute. repeat split; reflexivity. Qed.

(** ** Instances of the theorems *)

Lemma token_check_comes_first_witness :
  call mock_runtime (RefreshDataset "w" "d") (mock_state JNull accepting_service no_provider)
  = (inl NotAuthenticatedError, mock_state JNull accepting_service no_provider)
  ∧ trace (world (snd (call mock_runtime (RefreshDataset "w" "d")
                         (mock_state JNull accepting_service no_provider)))) = [].
Proof. apply token_check_comes_first; reflexivity. Defined.




Lemma list_datasets_maps_records_witness :
  ∃ df,
    fst (get_list_of_datasets mock_runtime "w"
           (mock_state (JStr "tok") datasets_service no_provider)) = inr df
    ∧ df_columns df = ["id"; "name"]
    ∧ df_rows df = [[Cell (JStr "d1"); Cell (JStr "Sales")]].
Proof.
  destruct (list_datasets_maps_records mock_runtime "w"
              (mock_state (JStr "tok") datasets_service no_provider)
              {| status_code := 200; text := "";
                 json_body := Some (JObj [("value", JArr [JObj [("id", JStr "d1");
                                                                ("name", JStr "Sales")]])]) |})
    as [H200 _].
  - simpl. discriminate.
  - reflexivity.
  - destruct (H200 eq_refl
                [("value", JArr [JObj [("id", JStr "d1"); ("name", JStr "Sales")]])]
                [JObj [("id", JStr "d1"); ("name", JStr "Sales")]]
                eq_refl eq_refl eq_refl) as (df & Hret & Hcols & Hlen & Hrows & _).
    exists df. split; [exact Hret |]. split; [exact Hcols |].
    specialize (Hrows 0%nat (Nat.lt_0_succ 0)).
    destruct (df_rows df) as [| row [| row' more]]; try discriminate Hlen.
    injection Hrows as ->. reflexivity.
Defined.

Lemma export_documentation_four_sheets_witness :
  fst (get_documentation mock_runtime "d" "out"
         (mock_state (JStr "tok") query_service no_provider)) = inr tt
  ∧ files (world (snd (get_documentation mock_runtime "d" "out"
                         (mock_state (JStr "tok") query_service no_provider))))
    = <[doc_path "d" "out" := [("columns", one_row); ("tables", one_row);
                               ("measures", one_row); ("relations", one_row)]]> ∅.
Proof.
  destruct (export_documentation_four_sheets mock_runtime "d" "out"
              (mock_state (JStr "tok") query_service no_provider))
    as [_ [_ [Hok _]]].
  - simpl. discriminate.
  - reflexivity.
  - destruct (Hok one_row one_row one_row one_row) as [Hret [Hfiles _]].
    + vm_compute. reflexivity.
    + reflexivity.
    + reflexivity.
    + reflexivity.
    + reflexivity.
    + split; [exact Hret | exact Hfiles].
Defined.

(** C5, as stated, fails: the service refuses the first query.
    [execute_query] raises the exception of status 500, yet what
    [get_documentation] raises is the [IndexError] of saving a workbook
    without a sheet. *)
Lemma export_documentation_masks_first_error :
  let s := mock_state (JStr "tok") refusing_service no_provider in
  fst (execute_query mock_runtime (query_word "columns") "d" s) = inl (ApiError 500 "boom")
  ∧ first_error (doc_outcomes mock_runtime s "d" "out") = Some (ApiError 500 "boom")
  ∧ fst (get_documentation mock_runtime "d" "out" s) = inl IndexError
  ∧ fst (get_documentation mock_runtime "d" "out" s) ≠ inl (ApiError 500 "boom").
Proof.
  cbv zeta. split; [vm_compute; reflexivity |]. split; [vm_compute; reflexivity |].
  split; [vm_compute; reflexivity |]. vm_compute. discriminate.
Qed.

Lemma export_documentation_partial_file_witness :
  fst (get_documentation mock_runtime "d" "out"
         (mock_state (JStr "tok") failing_service no_provider)) = inl (ApiError 500 "boom")
  ∧ files (world (snd (get_documentation mock_runtime "d" "out"
                         (mock_state (JStr "tok") failing_service no_provider))))
    !! doc_path "d" "out"
    = Some (zip doc_var_list
              (completed (doc_outcomes mock_runtime
                            (mock_state (JStr "tok") failing_service no_provider)
                            "d" "out"))).
Proof.
  destruct (export_documentation_partial_file mock_runtime "d" "out"
              (mock_state (JStr "tok") failing_service no_provider))
    as [_ [_ Hfail]].
  - simpl. discriminate.
  - reflexivity.
  - destruct (Hfail (ApiError 500 "boom")) as (_ & Hfile & Hsheets & _).
    + vm_compute. reflexivity.
    + unfold writes_ok. vm_compute. repeat constructor.
    + split; [| exact Hfile].
      apply Hsheets. vm_compute. discriminate.
Defined.

Lemma refresh_succeeds_iff_202_witness :
  fst (refresh_dataset mock_runtime "w" "d"
         (mock_state (JStr "tok") accepting_service no_provider)) = inr tt.
Proof.
  destruct (refresh_succeeds_iff_202 mock_runtime "w" "d"
              (mock_state (JStr "tok") accepting_service no_provider)
              {| status_code := 202; text := ""; json_body := None |})
    as [[_ H202] _].
  - simpl. discriminate.
  - reflexivity.
  - apply H202. reflexivity.
Defined.

Lemma only_get_token_writes_the_instance_witness :
  self (snd (call mock_runtime (RefreshDataset "w" "d")
               (mock_state (JStr "tok") accepting_service no_provider)))
  = mock_client (JStr "tok").
Proof.
  destruct (only_get_token_writes_the_instance mock_runtime) as [Hframe _].
  rewrite Hframe; [reflexivity | discriminate].
Defined.

Lemma fetch_token_failure_overwrites_token_witness :
  fst (get_token (mock_state (JStr "old") accepting_service refusing_provider))
  = inl AuthenticationError
  ∧ access_token (self (snd (get_token
                               (mock_state (JStr "old") accepting_service refusing_provider))))
    = JNull.
Proof.
  destruct (fetch_token_failure_overwrites_token mock_runtime
              (mock_state (JStr "old") accepting_service refusing_provider)
              [("error", JStr "invalid_client")])
    as [Hret [Htok _]].
  - reflexivity.
  - reflexivity.
  - split; [exact Hret | exact Htok].
Defined.

(** C9, as stated, fails: the identity provider answers with an empty
    token while the instance holds an older one.  [get_token] raises, yet
    the attribute is the empty string and not [None], and the refresh that
    follows is sent and accepted instead of raising the no-token
    exception. *)
Lemma fetch_token_failure_not_absent :
  let s := mock_state (JStr "old") accepting_service empty_token_provider in
  fst (get_token s) = inl AuthenticationError
  ∧ access_token (self (snd (get_token s))) ≠ JNull
  ∧ fst (call mock_runtime (RefreshDataset "w" "d") (snd (get_token s)))
    ≠ inl NotAuthenticatedError.
Proof.
  cbv zeta. split; [vm_compute; reflexivity |]. split.
  - vm_compute. discriminate.
  - vm_compute. discriminate.
Qed.

(** ** Instances of the further properties *)

Lemma list_reports_maps_records_witness :
  ∃ df,
    fst (get_list_of_reports mock_runtime "w"
           (mock_state (JStr "tok") reports_service no_provider)) = inr df
    ∧ df_columns df = ["id"; "name"]
    ∧ df_rows df = [[Cell (JStr "r1"); Cell (JStr "Sales report")]].
Proof.
  destruct (list_reports_maps_records mock_runtime "w"
              (mock_state (JStr "tok") reports_service no_provider)
              {| status_code := 200; text := ""; json_body := Some reports_payload |})
    as [H200 _].
  - simpl. discriminate.
  - reflexivity.
  - destruct (H200 eq_refl [("value", JArr [the_report])] [the_report]
                eq_refl eq_refl eq_refl) as (df & Hret & Hcols & Hlen & Hrows & _).
    exists df. split; [exact Hret |]. split; [exact Hcols |].
    specialize (Hrows 0%nat (Nat.lt_0_succ 0)).
    destruct (df_rows df) as [| row [| row' more]]; try discriminate Hlen.
    injection Hrows as ->. reflexivity.
Defined.

Lemma listings_at_the_edges_witness :
  fst (get_list_of_datasets mock_runtime "w"
         (mock_state (JStr "tok") html_service no_provider))
  = inl JSONDecodeError.
Proof.
  destruct (listings_at_the_edges mock_runtime "w"
              (mock_state (JStr "tok") html_service no_provider)) with (reports := false)
    as [_ Hanswer].
  - simpl. discriminate.
  - destruct (Hanswer {| status_code := 200; text := "<html>gateway</html>";
                         json_body := None |} eq_refl eq_refl) as [Hbody _].
    apply Hbody. reflexivity.
Defined.

Lemma one_request_per_call_witness :
  http_requests (trace (world (snd (call mock_runtime (ListDatasets "w")
                                      (mock_state (JStr "tok") datasets_service no_provider)))))
  = [datasets_request mock_runtime (JStr "tok") "w"].
Proof.
  apply (one_request_per_call mock_runtime (ListDatasets "w")
           (mock_state (JStr "tok") datasets_service no_provider)).
  - simpl. discriminate.
  - reflexivity.
Defined.

Lemma execute_query_prints_shape_errors_witness :
  trace (world (snd (execute_query mock_runtime "EVALUATE t" "d"
                       (mock_state (JStr "tok") no_tables_service no_provider))))
  = [Http (query_request mock_runtime (JStr "tok") "EVALUATE t" "d");
     Print (ErrorCaught (KeyError (JStr "tables")))].
Proof.
  destruct (execute_query_prints_shape_errors mock_runtime "EVALUATE t" "d"
              (mock_state (JStr "tok") no_tables_service no_provider))
    as [_ Hanswer].
  - simpl. discriminate.
  - destruct (Hanswer {| status_code := 200; text := "";
                         json_body := Some (JObj [("results", JArr [JObj []])]) |} eq_refl)
      as [_ H200].
    destruct (H200 eq_refl) as [_ Hjson].
    destruct (Hjson (JObj [("results", JArr [JObj []])]) eq_refl) as [_ Htrace].
    rewrite Htrace. reflexivity.
Defined.

Lemma rows_of_payload_shape_witness :
  rows_of_payload two_tables_payload = inr (JArr [JObj [("a", JNum 1)]]).
Proof.
  apply rows_of_payload_shape.
  eexists _, _, _, _, _. split; [reflexivity |]. split; [reflexivity |].
  split; reflexivity.
Defined.

Lemma export_documentation_unwritable_witness :
  get_documentation mock_runtime "d" "out" (read_only_state (JStr "tok") query_service)
  = (inl OSError, read_only_state (JStr "tok") query_service).
Proof.
  apply export_documentation_unwritable.
  - simpl. discriminate.
  - reflexivity.
Defined.

Lemma get_token_after_init_witness :
  access_token
    (self (snd (get_token
                  (snd (__init__ "t" "c" "s" "scope"
                          (mock_state JNull accepting_service granting_provider))))))
  = JStr "fresh".
Proof.
  destruct (get_token_after_init "t" "c" "s" "scope"
              (mock_state JNull accepting_service granting_provider)
              [("token_type", JStr "Bearer"); ("access_token", JStr "fresh")])
    as (_ & Htok & _).
  - reflexivity.
  - reflexivity.
  - exact Htok.
Defined.

Lemma get_token_transport_failure_witness :
  fst (get_token (mock_state (JStr "old") accepting_service no_provider)) = inl MsalError
  ∧ access_token (self (snd (get_token (mock_state (JStr "old") accepting_service
                                          no_provider))))
    = JStr "old".
Proof.
  destruct (get_token_transport_failure
              (mock_state (JStr "old") accepting_service no_provider))
    as (Hret & Hself & _).
  - reflexivity.
  - split; [exact Hret | rewrite Hself; reflexivity].
Defined.

Lemma requests_carry_the_token_witness :
  ∃ evs,
    trace (world (snd (call mock_runtime (ExecuteQuery "EVALUATE t" "d")
                         (mock_state (JStr "tok") query_service no_provider))))
    = ([] ++ evs)%list
    ∧ Forall (secured mock_runtime (JStr "tok")) evs.
Proof.
  apply (requests_carry_the_token mock_runtime (ExecuteQuery "EVALUATE t" "d")
           (mock_state (JStr "tok") query_service no_provider)).
  reflexivity.
Defined.

Lemma no_token_exception_iff_witness :
  fst (call mock_runtime (ListReports "w") (mock_state (JStr "tok") reports_service no_provider))
  = inl NotAuthenticatedError
  <-> JStr "tok" = JNull.
Proof.
  apply (no_token_exception_iff mock_runtime (ListReports "w")
           (mock_state (JStr "tok") reports_service no_provider)).
  reflexivity.
Defined.

Lemma only_the_export_writes_files_witness :
  files (world (snd (call mock_runtime (RefreshDataset "w" "d")
                       (mock_state (JStr "tok") accepting_service no_provider))))
  = ∅.
Proof.
  apply (only_the_export_writes_files mock_runtime (RefreshDataset "w" "d")
           (mock_state (JStr "tok") accepting_service no_provider)).
  reflexivity.
Defined.

Lemma reports_round_trips_witness :
  http_requests
    (trace (world (snd (get_reports_with_datasets mock_runtime "w"
                          (mock_state (JStr "tok") reports_service no_provider)))))
  = [reports_request mock_runtime (JStr "tok") "w";
     dataset_detail_request mock_runtime (JStr "tok") "w" (JStr "d1")].
Proof.
  apply (reports_round_trips mock_runtime "w"
           (mock_state (JStr "tok") reports_service no_provider)
           {| status_code := 200; text := ""; json_body := Some reports_payload |}
           [("value", JArr [the_report])] [the_report]).
  - simpl. discriminate.
  - reflexivity.
  - reflexivity.
  - reflexivity.
  - reflexivity.
  - reflexivity.
  - intros t dataset_id. simpl. unfold reports_service.
    destruct (String.eqb _ _); eexists; (split; [reflexivity |]); simpl; intros H200.
    + eexists. reflexivity.
    + discriminate H200.
Defined.

Lemma detail_failures_propagate_witness :
  fst (get_reports_with_datasets mock_runtime "w"
         (mock_state (JStr "tok") flaky_service no_provider))
  = inl RequestException.
Proof.
  destruct (detail_failures_propagate mock_runtime "w"
              (mock_state (JStr "tok") flaky_service no_provider)
              {| status_code := 200; text := ""; json_body := Some reports_payload |}
              [("value", JArr [the_report])] the_report [])
    as [Hlost _].
  - simpl. discriminate.
  - reflexivity.
  - reflexivity.
  - reflexivity.
  - reflexivity.
  - reflexivity.
  - reflexivity.
  - apply Hlost. reflexivity.
Defined.

Lemma export_stops_at_first_failure_witness :
  http_requests
    (trace (world (snd (get_documentation mock_runtime "d" "out"
                          (mock_state (JStr "tok") failing_service no_provider)))))
  = take 3 (doc_requests mock_runtime (JStr "tok") "d" doc_var_list).
Proof.
  rewrite (export_stops_at_first_failure mock_runtime "d" "out"
             (mock_state (JStr "tok") failing_service no_provider)).
  - vm_compute. reflexivity.
  - simpl. discriminate.
  - reflexivity.
Defined.

Lemma fetched_token_is_used_witness :
  fst (call mock_runtime (RefreshDataset "w" "d")
         (snd (get_token (mock_state (JStr "old") accepting_service granting_provider))))
  ≠ inl NotAuthenticatedError.
Proof.
  destruct (fetched_token_is_used mock_runtime
              (mock_state (JStr "old") accepting_service granting_provider)
              [("token_type", JStr "Bearer"); ("access_token", JStr "fresh")]
              (RefreshDataset "w" "d"))
    as [Hnot _].
  - reflexivity.
  - reflexivity.
  - reflexivity.
  - exact Hnot.
Defined.
